(** * corekinect.py: a client for the CoreKinect REST API

    A shallow embedding of [corekinect.py].  Every function of the module
    performs one HTTP call through the [requests] library, inspects the
    reply, writes log records and returns a Python value or raises.

    - Python values are the inductive [pyval]; the built-in operations the
      module applies to values of unknown type ([not v], [k in v], [v[k]],
      [for x in v], [v.values()]) are total functions into [result].
    - A [requests.Response] is the record [response]; its truth value, its
      iteration protocol and its [json()] method follow the class.
    - A function of the module is a computation in [M]: it reads the
      transport, appends to the trace of observable events (log records,
      printed lines, issued requests) and returns or raises. *)

From Stdlib Require Import List Strings.String Strings.Ascii Strings.Byte ZArith Bool Arith Lia.
From Stdlib Require Import Permutation.
From Stdlib Require Import Floats.SpecFloat.
Import ListNotations.

#[local] Set Warnings "-register-all".


Local Open Scope string_scope.
Local Open Scope list_scope.

(** ** Python values *)

(** The values [json.loads] produces, together with [bytes] (the chunks a
    [Response] yields when iterated).  A [dict] keeps its insertion order;
    lookup takes the first binding of a key. *)
Inductive pyval : Type :=
| PNone
| PBool (b : bool)
| PInt (z : Z)
| PFloat (f : spec_float)
| PStr (s : string)
| PBytes (b : list byte)
| PList (l : list pyval)
| PDict (d : list (string * pyval)).

(** The exceptions that can escape a function of the module. *)
Inductive exn : Type :=
| KeyError (key : string)
| IndexError
| TypeError
| AttributeError
| JSONDecodeError
| ConnectionError.

(** [KeyError] and [IndexError] are the subclasses of [LookupError]. *)
Definition is_lookup_error (e : exn) : bool :=
  match e with
  | KeyError _ | IndexError => true
  | _ => false
  end.

Inductive result (A : Type) : Type :=
| Ret (a : A)
| Raise (e : exn).
Arguments Ret {A} a.
Arguments Raise {A} e.

Definition rbind {A B} (r : result A) (f : A -> result B) : result B :=
  match r with
  | Ret a => f a
  | Raise e => Raise e
  end.

(** [[f(x) for x in l]]: the first element on which [f] raises ends the
    comprehension. *)
Fixpoint rmap {A B} (f : A -> result B) (l : list A) : result (list B) :=
  match l with
  | [] => Ret []
  | x :: l' => rbind (f x) (fun y => rbind (rmap f l') (fun ys => Ret (y :: ys)))
  end.

Fixpoint dict_get (k : string) (d : list (string * pyval)) : option pyval :=
  match d with
  | [] => None
  | (k', v) :: d' => if String.eqb k k' then Some v else dict_get k d'
  end.

(** [bool(v)]. *)
Definition truthy (v : pyval) : bool :=
  match v with
  | PNone => false
  | PBool b => b
  | PInt z => negb (Z.eqb z 0)
  | PFloat (S754_zero _) => false
  | PFloat _ => true
  | PStr s => negb (String.eqb s "")
  | PBytes [] => false
  | PBytes _ => true
  | PList [] => false
  | PList _ => true
  | PDict [] => false
  | PDict _ => true
  end.

(** [k == v] for a [str] k: only an equal [str] compares equal. *)
Definition str_eq (k : string) (v : pyval) : bool :=
  match v with
  | PStr s => String.eqb k s
  | _ => false
  end.

Definition is_substring (k s : string) : bool :=
  match String.index 0 k s with
  | Some _ => true
  | None => false
  end.

(** [k in v] for a [str] k. *)
Definition py_contains (k : string) (v : pyval) : result bool :=
  match v with
  | PDict d => Ret (match dict_get k d with Some _ => true | None => false end)
  | PList l => Ret (existsb (str_eq k) l)
  | PStr s => Ret (is_substring k s)
  | PBytes _ => Raise TypeError
  | PNone | PBool _ | PInt _ | PFloat _ => Raise TypeError
  end.

(** [v[k]] for a [str] k. *)
Definition py_getitem (v : pyval) (k : string) : result pyval :=
  match v with
  | PDict d => match dict_get k d with
               | Some x => Ret x
               | None => Raise (KeyError k)
               end
  | _ => Raise TypeError
  end.

Definition chars (s : string) : list pyval :=
  map (fun c => PStr (String c EmptyString)) (list_ascii_of_string s).

(** The elements [for x in v] visits. *)
Definition py_iter (v : pyval) : result (list pyval) :=
  match v with
  | PList l => Ret l
  | PDict d => Ret (map (fun kv => PStr (fst kv)) d)
  | PStr s => Ret (chars s)
  | PBytes b => Ret (map (fun x => PInt (Z.of_N (Byte.to_N x))) b)
  | PNone | PBool _ | PInt _ | PFloat _ => Raise TypeError
  end.

(** [v.values()], the view rendered as the list of its values. *)
Definition py_values (v : pyval) : result pyval :=
  match v with
  | PDict d => Ret (PList (map snd d))
  | _ => Raise AttributeError
  end.

(** [l[i]] for a list and an index [i >= 0]. *)
Definition list_index {A} (l : list A) (i : nat) : result A :=
  match nth_error l i with
  | Some x => Ret x
  | None => Raise IndexError
  end.

(** [range(n)]. *)
Definition range (n : nat) : list nat := seq 0 n.

(** ** The [requests] library *)

Inductive http_method : Type := GET | POST | DELETE.

(** The arguments of [requests.get], [requests.post], [requests.delete]. *)
Record request : Type := mkRequest {
  req_method : http_method;
  req_url : string;
  req_params : list (string * pyval);
  req_headers : list (string * string);
  req_auth : option (string * string)
}.

Record response : Type := mkResponse {
  status_code : Z;
  content : list byte
}.

(** [Response.__bool__] is [Response.ok]: no status in [400, 600). *)
Definition Response_bool (r : response) : bool :=
  negb ((400 <=? status_code r)%Z && (status_code r <? 600)%Z).

(** The loop of [iter_slices]: while bytes remain, yield the next [n] of
    them.  Each round consumes at least one byte when [n > 0], so as many
    rounds as there are bytes suffice. *)
Fixpoint iter_slices_fuel (fuel n : nat) (s : list byte) : list (list byte) :=
  match fuel, s with
  | _, [] => []
  | O, _ => []
  | S fuel', _ => firstn n s :: iter_slices_fuel fuel' n (skipn n s)
  end.

(** [iter_slices(string, slice_length)]; a length that is not positive
    stands for the whole string. *)
Definition iter_slices (s : list byte) (n : nat) : list (list byte) :=
  let slice_length := if Nat.eqb n 0 then List.length s else n in
  iter_slices_fuel (List.length s) slice_length s.

(** [Response.__iter__] is [iter_content(128)]. *)
Definition Response_iter (r : response) : list pyval :=
  map PBytes (iter_slices (content r) 128).

(** [k in r]: the class has no [__contains__], so the test iterates. *)
Definition Response_contains (k : string) (r : response) : bool :=
  existsb (str_eq k) (Response_iter r).

(** [r[k]]: the class has no [__getitem__]. *)
Definition Response_getitem (r : response) (k : string) : result pyval :=
  Raise TypeError.

(** The decoder behind [Response.json()], from the body to a value. *)
Definition decoder : Type := list byte -> option pyval.

Definition Response_json (loads : decoder) (r : response) : result pyval :=
  match loads (content r) with
  | Some v => Ret v
  | None => Raise JSONDecodeError
  end.

(** ** Observable events and the monad of the module's functions *)

Inductive level : Type := DEBUG | INFO | WARNING | ERROR.

(** A log record keeps the format string and the formatted arguments. *)
Inductive event : Type :=
| EvLog (lvl : level) (fmt : string) (args : list pyval)
| EvPrint (line : string)
| EvSend (req : request).

(** The transport: the reply to a request, or none when it fails. *)
Definition network : Type := request -> option response.

Definition M (A : Type) : Type := network -> list event * result A.

Definition ret {A} (a : A) : M A := fun _ => ([], Ret a).

Definition bind {A B} (m : M A) (f : A -> M B) : M B :=
  fun net =>
    match m net with
    | (t, Ret a) => let (t', r) := f a net in (t ++ t', r)
    | (t, Raise e) => (t, Raise e)
    end.

Definition lift {A} (r : result A) : M A := fun _ => ([], r).

Definition emit (ev : event) : M unit := fun _ => ([ev], Ret tt).

Definition when (c : bool) (m : M unit) : M unit := if c then m else ret tt.

Fixpoint for_each {A} (l : list A) (body : A -> M unit) : M unit :=
  match l with
  | [] => ret tt
  | x :: l' => bind (body x) (fun _ => for_each l' body)
  end.

Declare Scope py_scope.
Delimit Scope py_scope with py.
Notation "x <- m ;; k" := (bind m (fun x => k))
  (at level 61, m at next level, right associativity) : py_scope.
Notation "m ;; k" := (bind m (fun _ => k))
  (at level 61, right associativity) : py_scope.
Local Open Scope py_scope.

(** [logging.basicConfig(level=logging.DEBUG)]: every record is emitted. *)
Definition logging_info (fmt : string) (args : list pyval) : M unit :=
  emit (EvLog INFO fmt args).
Definition logging_error (fmt : string) : M unit :=
  emit (EvLog ERROR fmt []).
Definition print (line : string) : M unit := emit (EvPrint line).

Definition http (req : request) : M response :=
  fun net =>
    match net req with
    | Some r => ([EvSend req], Ret r)
    | None => ([EvSend req], Raise ConnectionError)
    end.

Definition requests_get (url : string) (params : list (string * pyval))
    (headers : list (string * string)) (auth : option (string * string)) : M response :=
  http (mkRequest GET url params headers auth).
Definition requests_post (url : string) (params : list (string * pyval))
    (headers : list (string * string)) : M response :=
  http (mkRequest POST url params headers None).
Definition requests_delete (url : string) (params : list (string * pyval))
    (headers : list (string * string)) : M response :=
  http (mkRequest DELETE url params headers None).

(** ** The module *)

Definition base : string := "https://api.corekinect.cloud:3000".

(** ['Bearer {}'.format(token)]. *)
Definition bearer (token : string) : string := "Bearer " ++ token.

Section Client.

Variable json_loads : decoder.

Definition json (r : response) : M pyval := lift (Response_json json_loads r).

Definition print_version : M pyval :=
  version <- requests_get (base ++ "/account/GetVersion") [] [] None ;;
  when (negb (Response_bool version))
       (logging_error "No json data received in print_version()") ;;
  logging_info "Requesting version..." [] ;;
  logging_info "Status code: {}" [PInt (status_code version)] ;;
  j <- json version ;;
  v <- lift (py_getitem j "Version") ;;
  logging_info "Version: {}" [v] ;;
  ret PNone.

Definition get_token (client_id client_secret : string) : M pyval :=
  logging_info "Requesting token..." [] ;;
  let auth_params :=
    [ ("grant_type", PStr "client_credentials");
      ("client_id", PStr client_id);
      ("client_secret", PStr client_secret);
      ("content-type", PStr "application/x-www-form-urlencoded") ] in
  authorize <- requests_get (base ++ "/auth/RequestToken") auth_params []
                            (Some ("user", "pass")) ;;
  j <- json authorize ;;
  when (negb (truthy j)) (logging_error "No json data received in get_token()") ;;
  j <- json authorize ;;
  present <- lift (py_contains "access_token" j) ;;
  when (negb present) (logging_error "No token received") ;;
  logging_info "Status code: {}" [PInt (status_code authorize)] ;;
  j <- json authorize ;;
  tok <- lift (py_getitem j "access_token") ;;
  logging_info "Token: {}" [tok] ;;
  j <- json authorize ;;
  tok <- lift (py_getitem j "access_token") ;;
  ret tok.

(** [[{"DeviceId": new_ids[i], "ActivationCode": new_acs[i]}
      for i in range(len(new_ids))]]. *)
Definition dev_code_pair (new_ids new_acs : list string) (i : nat) : result pyval :=
  rbind (list_index new_ids i) (fun id =>
  rbind (list_index new_acs i) (fun ac =>
  Ret (PDict [("DeviceId", PStr id); ("ActivationCode", PStr ac)]))).

(** [[item[key] for item in resp.json()[field]]]. *)
Definition extract (resp : response) (field key : string) : M (list pyval) :=
  j <- json resp ;;
  listed <- lift (py_getitem j field) ;;
  items <- lift (py_iter listed) ;;
  lift (rmap (fun item => py_getitem item key) items).

Definition add_devices (new_ids new_acs : list string) (token : string) : M pyval :=
  logging_info "Adding devices..." [] ;;
  let authorization := bearer token in
  devices <- lift (rmap (dev_code_pair new_ids new_acs) (range (List.length new_ids))) ;;
  let dev_code_pairs :=
    [ ("Authorization", PStr authorization);
      ("devices", PList devices) ] in
  attempt_add <- requests_post (base ++ "/account/AddDevices") dev_code_pairs [] ;;
  j <- json attempt_add ;;
  when (negb (truthy j)) (logging_error "No json data received in add_devices()") ;;
  j <- json attempt_add ;;
  present <- lift (py_contains "DevicesPassed" j) ;;
  when (negb present) (logging_error "Failed to add any devices") ;;
  passed <- extract attempt_add "DevicesPassed" "DeviceId" ;;
  logging_info "Added successfully: {}" [PList passed] ;;
  ret (PList passed).

Definition create_endpoint (token devv_url : string) : M pyval :=
  logging_info "Creating endpoint..." [] ;;
  endpoint <- requests_post (base ++ "/account/CreateEndpoint")
                [ ("URL", PStr devv_url);
                  ("Authorization", PStr (bearer token)) ] [] ;;
  j <- json endpoint ;;
  when (negb (truthy j)) (logging_error "No json data received in create_endpoint()") ;;
  j <- json endpoint ;;
  present <- lift (py_contains "EndpointId" j) ;;
  when (negb present)
       (logging_error "EndpointId is missing from json response in create_endpoint()") ;;
  j <- json endpoint ;;
  id <- lift (py_getitem j "EndpointId") ;;
  logging_info "Endpoint ID: {}" [id] ;;
  json endpoint.

(** The defaults of the keyword arguments are ["Bearer"] and
    ["access_token"]. *)
Definition create_oauth_endpoint (devv_url auth_url token : string)
    (AuthTokenType AuthTokenKey : string) : M pyval :=
  logging_info "Creating endpoint..." [] ;;
  endpoint <- requests_post (base ++ "/account/CreateEndpoint")
                [ ("URL", PStr devv_url);
                  ("AuthUrl", PStr auth_url);
                  ("Authorization", PStr (bearer token));
                  ("AuthTokenType", PStr AuthTokenType);
                  ("AuthTokenKey", PStr AuthTokenKey) ] [] ;;
  j <- json endpoint ;;
  when (negb (truthy j)) (logging_error "No json data received in create_endpoint()") ;;
  j <- json endpoint ;;
  present <- lift (py_contains "EndpointId" j) ;;
  (if negb present then
     j <- json endpoint ;;
     rejected <- lift (py_contains "EndpointError" j) ;;
     if rejected then
       logging_error "Failed to get a token from AuthUrl with given parameters, response from AuthUrl was 400"
     else
       logging_error "EndpointId is missing from json response in create_oauth_endpoint()"
   else ret tt) ;;
  j <- json endpoint ;;
  id <- lift (py_getitem j "EndpointId") ;;
  logging_info "Endpoint ID: {}" [id] ;;
  json endpoint.

(** [[{"DeviceId": device_id} for device_id in device_ids]]. *)
Definition device_dicts (device_ids : list string) : pyval :=
  PList (map (fun device_id => PDict [("DeviceId", PStr device_id)]) device_ids).

Definition assign_to_endpoint (device_ids : list string) (endpoint_id token : string)
    : M pyval :=
  logging_info "Assigning devices to endpoint (ID: {})..." [PStr endpoint_id] ;;
  let dev_params :=
    [ ("EndpointId", PStr endpoint_id); ("Devices", device_dicts device_ids) ] in
  assign_device <- requests_post (base ++ "/account/AssignDevicesToEndpoint")
                     dev_params [("Authorization", bearer token)] ;;
  j <- json assign_device ;;
  when (negb (truthy j)) (logging_error "No json data received in assign_to_endpoint()") ;;
  j <- json assign_device ;;
  present <- lift (py_contains "DevicePassed" j) ;;
  when (negb present) (logging_error "Failed to assign devices to endpoint") ;;
  passed <- extract assign_device "DevicePassed" "DeviceId" ;;
  logging_info "Successfully added: {}" [PList passed] ;;
  ret (PList passed).

Definition delete_from_endpoint (device_ids : list string) (endpoint_id token : string)
    : M pyval :=
  print ("Deleting devices from endpoint (ID: " ++ endpoint_id ++ ")...") ;;
  let dev_params :=
    [ ("EndpointId", PStr endpoint_id); ("Devices", device_dicts device_ids) ] in
  delete_device <- requests_delete (base ++ "/account/DeleteDevicesFromEndpoint")
                     dev_params [("Authorization", bearer token)] ;;
  j <- json delete_device ;;
  when (negb (truthy j)) (logging_error "No json data received in delete_from_endpoint()") ;;
  j <- json delete_device ;;
  present <- lift (py_contains "DevicePassed" j) ;;
  when (negb present) (logging_error "Failed to delete (devices not found)") ;;
  passed <- extract delete_device "DevicePassed" "DeviceId" ;;
  logging_info "Deleted: {}" [PList passed] ;;
  ret (PList passed).

Definition delete_endpoints (kill_points : list string) (token : string) : M pyval :=
  logging_info "Deleting endpoints..." [] ;;
  let to_delete :=
    [ ("Endpoints",
       PList (map (fun endpoint => PDict [("EndpointId", PStr endpoint)]) kill_points)) ] in
  deleted_endpoints <- requests_delete (base ++ "/account/DeleteEndpoints")
                         to_delete [("Authorization", ("Bearer " ++ token)%string)] ;;
  j <- json deleted_endpoints ;;
  when (negb (truthy j)) (logging_error "No json data received in delete_endpoints()") ;;
  j <- json deleted_endpoints ;;
  present <- lift (py_contains "EndpointsDeleted" j) ;;
  when (negb present) (logging_error "Endpoints not found") ;;
  deleted <- extract deleted_endpoints "EndpointsDeleted" "EndpointId" ;;
  logging_info "Deleted endpoints: {}" [PList deleted] ;;
  ret (PList deleted).

(** The body of the loop of [get_endpoints]:
    [logging.info('Found: {}'.format(entry.values()))]. *)
Definition log_found (entry : pyval) : M unit :=
  vs <- lift (py_values entry) ;;
  logging_info "Found: {}" [vs].

Definition get_endpoints (token : string) : M pyval :=
  logging_info "Requesting list of endpoints..." [] ;;
  endpoints <- requests_get (base ++ "/account/GetEndpoints/") []
                 [("Authorization", bearer token)] None ;;
  j <- json endpoints ;;
  when (negb (truthy j)) (logging_error "No json data received in get_endpoints()") ;;
  j <- json endpoints ;;
  present <- lift (py_contains "EndpointId" j) ;;
  when (negb present)
       (logging_error "Endpoints are missing from json response in get_endpoints()") ;;
  j <- json endpoints ;;
  listed <- lift (py_getitem j "Endpoints") ;;
  entries <- lift (py_iter listed) ;;
  for_each entries log_found ;;
  j <- json endpoints ;;
  lift (py_getitem j "Endpoints").

Definition get_devices (token : string) : M pyval :=
  logging_info "Requesting list of devices..." [] ;;
  devices <- requests_get (base ++ "/account/GetDevices/") []
               [("Authorization", bearer token)] None ;;
  when (negb (Response_bool devices))
       (logging_error "No json data received in get_devices()") ;;
  when (negb (Response_contains "Devices" devices)) (logging_error "No devices found") ;;
  listed <- lift (Response_getitem devices "Devices") ;;
  entries <- lift (py_iter listed) ;;
  found <- lift (rmap (fun entry => py_getitem entry "DeviceId") entries) ;;
  logging_info "Found devices: {}" [PList found] ;;
  j <- json devices ;;
  lift (py_getitem j "Devices").

Definition get_devices_by_location (token : string) : M pyval :=
  logging_info "Requesting device list by location..." [] ;;
  devices <- requests_get (base ++ "/account/GetDevicesByLocation/") []
               [("Authorization", bearer token)] None ;;
  when (negb (Response_bool devices))
       (logging_error "No json data received in get_devices_by_location()") ;;
  when (negb (Response_contains "Devices" devices)) (logging_error "No devices found") ;;
  names <- lift (rmap (fun entry => py_getitem entry "LocationName")
                      (Response_iter devices)) ;;
  logging_info "Locations found: {}" [PList names] ;;
  json devices.

Definition get_locations (token : string) : M pyval :=
  logging_info "Requesting location list..." [] ;;
  locations <- requests_get (base ++ "/account/GetLocations/") []
                 [("Authorization", bearer token)] None ;;
  when (negb (Response_bool locations))
       (logging_error "No json data received in get_locations()") ;;
  names <- lift (rmap (fun entry => py_getitem entry "LocationName")
                      (Response_iter locations)) ;;
  logging_info "Locations found: {}" [PList names] ;;
  json locations.

Definition get_location_reports (token : string) : M pyval :=
  logging_info "Requesting location reports..." [] ;;
  reports <- requests_get (base ++ "/account/GetLocationReports") []
               [("Authorization", bearer token)] None ;;
  when (negb (Response_bool reports))
       (logging_error "No json data received in get_location_reports") ;;
  names <- lift (rmap (fun entry => py_getitem entry "LocationName")
                      (Response_iter reports)) ;;
  logging_info "Reports generated for: {}" [PList names] ;;
  json reports.

End Client.

(** ** Reading a run *)

(** The transport that delivers the response [r]. *)
Definition answering (r : response) : network := fun _ => Some r.

(** The requests issued during a run, in order. *)
Fixpoint sent (t : list event) : list request :=
  match t with
  | [] => []
  | EvSend req :: t' => req :: sent t'
  | _ :: t' => sent t'
  end.

Definition logged (lvl : level) (fmt : string) (t : list event) : Prop :=
  In (EvLog lvl fmt []) t.

(** An error record [msg] is written and then the lookup of [key] fails. *)
Definition logs_then_KeyError (msg key : string) (run : list event * result pyval) : Prop :=
  logged ERROR msg (fst run) /\ snd run = Raise (KeyError key).

(** The run fails with an error of its own kind, not with the lookup
    failure of a missing key or index. *)
Definition signals_distinct_error (run : list event * result pyval) : Prop :=
  exists e, snd run = Raise e /\ is_lookup_error e = false.

(** A computation that issues no request. *)
Definition silent {A} (m : M A) : Prop := forall net, sent (fst (m net)) = [].

(** The request is issued with the credential in its headers. *)
Definition bearer_in_header (token : string) (t : list event) : Prop :=
  exists req, sent t = [req] /\
    req_headers req = [("Authorization", bearer token)] /\
    dict_get "Authorization" (req_params req) = None.

(** The request is issued with the credential among its query parameters. *)
Definition bearer_in_params (token : string) (t : list event) : Prop :=
  exists req, sent t = [req] /\
    req_headers req = [] /\
    dict_get "Authorization" (req_params req) = Some (PStr (bearer token)).

(** An entry of a listing: a JSON object that binds [key] to [v]. *)
Definition entry_with (key : string) (entry v : pyval) : Prop :=
  exists fields, entry = PDict fields /\ dict_get key fields = Some v.

Definition is_object (v : pyval) : Prop := exists fields, v = PDict fields.

(** Every element of [l1] occurs in [l2] at least as often as in [l1]. *)
Definition selected_from {A} (l1 l2 : list A) : Prop :=
  exists rest, Permutation (l1 ++ rest) l2.

(** The pair [add_devices] builds at index [i]. *)
Definition dev_code_dict (new_ids new_acs : list string) (i : nat) : pyval :=
  PDict [("DeviceId", PStr (nth i new_ids ""));
         ("ActivationCode", PStr (nth i new_acs ""))].

(** How an operation that iterates the raw response ends: the chunks of a
    non-empty body cannot be indexed by a [str]; an empty body yields no
    chunk and is then refused by [json()]. *)
Definition raw_iteration_failure (r : response) : result pyval :=
  match content r with
  | [] => Raise JSONDecodeError
  | _ :: _ => Raise TypeError
  end.

Definition never_returns (run : list event * result pyval) : Prop :=
  forall v, snd run <> Ret v.

(** ** Sample replies *)

(** A quoted JSON string without escapes. *)
Definition q (s : string) : string :=
  String "034"%char (s ++ String "034"%char "").

Definition reply (status : Z) (text : string) : response :=
  mkResponse status (list_byte_of_string text).

(** Device ids have 16 characters, activation codes 32. *)
Definition id_a1 : string := "00000000000000a1".
Definition id_a2 : string := "00000000000000a2".
Definition id_b7 : string := "00000000000000b7".
Definition id_b8 : string := "00000000000000b8".
Definition ac_1 : string := "0123456789abcdef0123456789abcdef".
Definition ac_2 : string := "fedcba9876543210fedcba9876543210".

Definition doc_empty_object : string := "{}".
Definition doc_version : string := "{" ++ q "Version" ++ ":" ++ q "2.1.0" ++ "}".
Definition doc_invalid_client : string := "{" ++ q "error" ++ ":" ++ q "invalid_client" ++ "}".
Definition doc_endpoint_error : string :=
  "{" ++ q "EndpointError" ++ ":" ++ q "AuthUrl returned 400" ++ "}".
Definition doc_message : string := "{" ++ q "Message" ++ ":" ++ q "Internal error" ++ "}".
Definition doc_endpoints_null : string := "{" ++ q "Endpoints" ++ ":null}".
Definition doc_endpoints : string :=
  "{" ++ q "Endpoints" ++ ":[{" ++ q "EndpointId" ++ ":" ++ q "ep-1" ++ ","
      ++ q "URL" ++ ":" ++ q "https://example.org/in" ++ ","
      ++ q "DataType" ++ ":" ++ q "json" ++ "}]}".
Definition doc_passed_one : string :=
  "{" ++ q "DevicesPassed" ++ ":[{" ++ q "DeviceId" ++ ":" ++ q id_a1 ++ "}]}".
Definition doc_passed_foreign : string :=
  "{" ++ q "DevicesPassed" ++ ":[{" ++ q "DeviceId" ++ ":" ++ q id_b7 ++ "},{"
      ++ q "DeviceId" ++ ":" ++ q id_b8 ++ "}]}".

(** What [json.loads] yields on the sample documents; the empty body and
    every other text outside the table are rejected. *)
Definition sample_documents : list (string * pyval) :=
  [ (doc_empty_object, PDict []);
    (doc_version, PDict [("Version", PStr "2.1.0")]);
    (doc_invalid_client, PDict [("error", PStr "invalid_client")]);
    (doc_endpoint_error, PDict [("EndpointError", PStr "AuthUrl returned 400")]);
    (doc_message, PDict [("Message", PStr "Internal error")]);
    (doc_endpoints_null, PDict [("Endpoints", PNone)]);
    (doc_endpoints,
     PDict [("Endpoints",
             PList [PDict [("EndpointId", PStr "ep-1");
                           ("URL", PStr "https://example.org/in");
                           ("DataType", PStr "json")]])]);
    (doc_passed_one,
     PDict [("DevicesPassed", PList [PDict [("DeviceId", PStr id_a1)]])]);
    (doc_passed_foreign,
     PDict [("DevicesPassed", PList [PDict [("DeviceId", PStr id_b7)];
                                     PDict [("DeviceId", PStr id_b8)]])]) ].

Definition sample_loads : decoder :=
  fun body => dict_get (string_of_list_byte body) sample_documents.

(** ** Further readings of a run and further sample replies *)

(** No record of level [ERROR] is written. *)
Definition no_error_logged (t : list event) : Prop :=
  forall msg args, ~ In (EvLog ERROR msg args) t.

(** The run fails with [e] and the log holds no error record. *)
Definition fails_unreported (e : exn) (run : list event * result pyval) : Prop :=
  no_error_logged (fst run) /\ snd run = Raise e.


(** The run returns [v] and the log holds no error record. *)
Definition returns_cleanly (v : pyval) (run : list event * result pyval) : Prop :=
  no_error_logged (fst run) /\ snd run = Ret v.

(** A listing whose entries bind [key] up to an object that does not. *)
Definition listing_with_gap (key : string) (entries : list pyval) : Prop :=
  exists good vals fields rest,
    entries = good ++ PDict fields :: rest /\
    Forall2 (entry_with key) good vals /\
    dict_get key fields = None.

Definition doc_token : string :=
  "{" ++ q "access_token" ++ ":" ++ q "abc123" ++ "," ++ q "token_type" ++ ":" ++ q "Bearer" ++ "}".
Definition doc_not_json : string := "<html>Bad Gateway</html>".
Definition doc_empty_list : string := "[]".
Definition doc_null : string := "null".
Definition doc_created : string :=
  "{" ++ q "EndpointId" ++ ":" ++ q "ep-1" ++ "," ++ q "URL" ++ ":" ++ q "https://example.org/in" ++ "}".
Definition doc_passed_malformed : string :=
  "{" ++ q "DevicesPassed" ++ ":[{" ++ q "DeviceId" ++ ":" ++ q id_a1 ++ "},{"
      ++ q "Id" ++ ":" ++ q id_a2 ++ "}]}".
Definition doc_device_passed : string :=
  "{" ++ q "DevicePassed" ++ ":[{" ++ q "DeviceId" ++ ":" ++ q id_a1 ++ "}]}".
Definition doc_endpoint_names : string := "{" ++ q "Endpoints" ++ ":[" ++ q "ep-1" ++ "]}".
Definition doc_deleted : string :=
  "{" ++ q "EndpointsDeleted" ++ ":[{" ++ q "EndpointId" ++ ":" ++ q "ep-1" ++ "}]}".
Definition doc_endpoints_with_id : string :=
  "{" ++ q "EndpointId" ++ ":" ++ q "ep-1" ++ "," ++ q "Endpoints" ++ ":[{"
      ++ q "EndpointId" ++ ":" ++ q "ep-1" ++ "}]}".

Definition more_documents : list (string * pyval) :=
  [ (doc_token, PDict [("access_token", PStr "abc123"); ("token_type", PStr "Bearer")]);
    (doc_empty_list, PList []);
    (doc_null, PNone);
    (doc_created, PDict [("EndpointId", PStr "ep-1"); ("URL", PStr "https://example.org/in")]);
    (doc_passed_malformed,
     PDict [("DevicesPassed", PList [PDict [("DeviceId", PStr id_a1)];
                                     PDict [("Id", PStr id_a2)]])]);
    (doc_device_passed,
     PDict [("DevicePassed", PList [PDict [("DeviceId", PStr id_a1)]])]);
    (doc_endpoint_names, PDict [("Endpoints", PList [PStr "ep-1"])]);
    (doc_deleted,
     PDict [("EndpointsDeleted", PList [PDict [("EndpointId", PStr "ep-1")]])]);
    (doc_endpoints_with_id,
     PDict [("EndpointId", PStr "ep-1");
            ("Endpoints", PList [PDict [("EndpointId", PStr "ep-1")]])]) ].

(** The sample decoder on the larger table; [doc_not_json] stays outside. *)
Definition reference_loads : decoder :=
  fun body => dict_get (string_of_list_byte body) (sample_documents ++ more_documents).

(** ** What [requests] puts on the wire for [params=] *)









(** ** Laws of the monad and of the trace *)

Lemma sent_app (t1 t2 : list event) : sent (t1 ++ t2) = sent t1 ++ sent t2.
Proof.
  induction t1 as [|ev t1 IH]; [reflexivity|].
  destruct ev; simpl; rewrite IH; reflexivity.
Qed.

Lemma sent_bind {A B} (m : M A) (f : A -> M B) (net : network) :
  sent (fst (bind m f net)) =
  sent (fst (m net)) ++
  match snd (m net) with
  | Ret a => sent (fst (f a net))
  | Raise _ => []
  end.
Proof.
  unfold bind. destruct (m net) as [t [a|e]]; simpl.
  - destruct (f a net) as [t' r']. simpl. apply sent_app.
  - symmetry. apply app_nil_r.
Qed.

Lemma silent_ret {A} (a : A) : silent (ret a).
Proof. intro net. reflexivity. Qed.

Lemma silent_lift {A} (r : result A) : silent (lift r).
Proof. intro net. reflexivity. Qed.

Lemma silent_logging_info fmt args : silent (logging_info fmt args).
Proof. intro net. reflexivity. Qed.

Lemma silent_logging_error fmt : silent (logging_error fmt).
Proof. intro net. reflexivity. Qed.

Lemma silent_print line : silent (print line).
Proof. intro net. reflexivity. Qed.

Lemma silent_bind {A B} (m : M A) (f : A -> M B) :
  silent m -> (forall a, silent (f a)) -> silent (bind m f).
Proof.
  intros Hm Hf net. rewrite sent_bind, Hm. simpl.
  destruct (snd (m net)); [apply Hf | reflexivity].
Qed.

Lemma silent_if {A} (c : bool) (m1 m2 : M A) :
  silent m1 -> silent m2 -> silent (if c then m1 else m2).
Proof. destruct c; auto. Qed.

Lemma silent_when (c : bool) (m : M unit) : silent m -> silent (when c m).
Proof. intro Hm. unfold when. apply silent_if; [exact Hm | apply silent_ret]. Qed.

Lemma silent_for_each {A} (l : list A) (body : A -> M unit) :
  (forall x, silent (body x)) -> silent (for_each l body).
Proof.
  intro Hbody. induction l as [|x l IH]; simpl.
  - apply silent_ret.
  - apply silent_bind; [apply Hbody | intros _; exact IH].
Qed.

Lemma silent_json loads r : silent (json loads r).
Proof. apply silent_lift. Qed.

Create HintDb silent.
#[local] Hint Resolve silent_ret silent_lift silent_logging_info silent_logging_error
  silent_print silent_bind silent_if silent_when silent_for_each silent_json : silent.

Lemma silent_extract loads r field key : silent (extract loads r field key).
Proof. unfold extract. auto 20 with silent. Qed.
#[local] Hint Resolve silent_extract : silent.

Lemma silent_log_found entry : silent (log_found entry).
Proof. unfold log_found. auto with silent. Qed.
#[local] Hint Resolve silent_log_found : silent.

(** Once the request is out, a silent continuation adds no other. *)
Lemma sent_http_then {A} (req : request) (k : response -> M A) (net : network) :
  (forall r, silent (k r)) -> sent (fst (bind (http req) k net)) = [req].
Proof.
  intro Hk. rewrite sent_bind. unfold http.
  destruct (net req) as [r|]; simpl; [rewrite Hk|]; reflexivity.
Qed.

Lemma sent_logging_then {A} fmt args (k : unit -> M A) (net : network) :
  sent (fst (bind (logging_info fmt args) k net)) = sent (fst (k tt net)).
Proof. rewrite sent_bind. reflexivity. Qed.

Lemma sent_lift_then {A B} (a : A) (k : A -> M B) (net : network) :
  sent (fst (bind (lift (Ret a)) k net)) = sent (fst (k a net)).
Proof. rewrite sent_bind. reflexivity. Qed.

Lemma sent_print_then {A} line (k : unit -> M A) (net : network) :
  sent (fst (bind (print line) k net)) = sent (fst (k tt net)).
Proof. rewrite sent_bind. reflexivity. Qed.

(** ** Comprehensions *)

Lemma rmap_ext_in {A B} (f g : A -> result B) (l : list A) :
  (forall x, In x l -> f x = g x) -> rmap f l = rmap g l.
Proof.
  induction l as [|x l IH]; intro H; simpl; [reflexivity|].
  rewrite (H x (or_introl eq_refl)), IH; [reflexivity|].
  intros y Hy. apply H. right. exact Hy.
Qed.

Lemma rmap_total {A B} (f : A -> result B) (g : A -> B) (l : list A) :
  (forall x, In x l -> f x = Ret (g x)) -> rmap f l = Ret (map g l).
Proof.
  induction l as [|x l IH]; intro H; simpl; [reflexivity|].
  rewrite (H x (or_introl eq_refl)). simpl. rewrite IH; [reflexivity|].
  intros y Hy. apply H. right. exact Hy.
Qed.

Lemma rmap_app_raise {A B} (f : A -> result B) (l1 l2 : list A) (x : A) (out : list B) (e : exn) :
  rmap f l1 = Ret out -> f x = Raise e -> rmap f (l1 ++ x :: l2) = Raise e.
Proof.
  revert out. induction l1 as [|y l1 IH]; intros out H1 Hx; simpl.
  - rewrite Hx. reflexivity.
  - simpl in H1. destruct (f y) as [b|e']; simpl in *; [|discriminate].
    destruct (rmap f l1) as [bs|e'] eqn:E; simpl in *; [|discriminate].
    rewrite (IH bs eq_refl Hx). reflexivity.
Qed.

(** The listed entries all bind [key]: the comprehension collects the
    bound values in order. *)
Lemma rmap_getitem_entries (key : string) (entries passed : list pyval) :
  Forall2 (entry_with key) entries passed ->
  rmap (fun item => py_getitem item key) entries = Ret passed.
Proof.
  induction 1 as [|entry v entries passed [fields [-> Hv]] _ IH]; simpl.
  - reflexivity.
  - rewrite Hv. simpl. rewrite IH. reflexivity.
Qed.

(** ** The device/activation-code pairs of [add_devices] *)

Lemma dev_code_pair_defined (new_ids new_acs : list string) (i : nat) :
  i < List.length new_ids -> i < List.length new_acs ->
  dev_code_pair new_ids new_acs i = Ret (dev_code_dict new_ids new_acs i).
Proof.
  intros Hi Ha. unfold dev_code_pair, list_index, dev_code_dict.
  rewrite (nth_error_nth' new_ids "" Hi), (nth_error_nth' new_acs "" Ha).
  reflexivity.
Qed.

Lemma dev_code_pairs_total (new_ids new_acs : list string) :
  List.length new_ids <= List.length new_acs ->
  rmap (dev_code_pair new_ids new_acs) (range (List.length new_ids)) =
  Ret (map (dev_code_dict new_ids new_acs) (range (List.length new_ids))).
Proof.
  intro Hlen. apply rmap_total. intros i Hi. unfold range in Hi.
  apply in_seq in Hi. apply dev_code_pair_defined; lia.
Qed.

Lemma dev_code_pairs_short (new_ids new_acs : list string) :
  List.length new_acs < List.length new_ids ->
  rmap (dev_code_pair new_ids new_acs) (range (List.length new_ids)) = Raise IndexError.
Proof.
  intro Hlen. unfold range.
  replace (List.length new_ids)
    with (List.length new_acs + S (List.length new_ids - S (List.length new_acs))) at 1 by lia.
  rewrite seq_app. simpl seq at 2.
  eapply rmap_app_raise.
  - apply rmap_total with (g := dev_code_dict new_ids new_acs).
    intros i Hi. apply in_seq in Hi. apply dev_code_pair_defined; lia.
  - unfold dev_code_pair, list_index. simpl.
    rewrite (nth_error_nth' new_ids "" Hlen). simpl.
    replace (nth_error new_acs (List.length new_acs)) with (@None string);
      [reflexivity|].
    symmetry. apply nth_error_None. lia.
Qed.

Lemma dev_code_pair_truncated (new_ids new_acs : list string) (i : nat) :
  i < List.length new_ids ->
  dev_code_pair new_ids (firstn (List.length new_ids) new_acs) i =
  dev_code_pair new_ids new_acs i.
Proof.
  intro Hi. unfold dev_code_pair, list_index.
  rewrite nth_error_firstn.
  destruct (Nat.ltb_spec i (List.length new_ids)); [reflexivity | lia].
Qed.

(** ** Iterating a response *)

Lemma iter_slices_fuel_concat (n fuel : nat) (s : list byte) :
  0 < n -> List.length s <= fuel -> List.concat (iter_slices_fuel fuel n s) = s.
Proof.
  intro Hn. revert s. induction fuel as [|fuel IH]; intros s Hlen.
  - destruct s; [reflexivity | simpl in Hlen; lia].
  - destruct s as [|b s]; [reflexivity|].
    change (iter_slices_fuel (S fuel) n (b :: s))
      with (firstn n (b :: s) :: iter_slices_fuel fuel n (skipn n (b :: s))).
    simpl List.concat. rewrite IH.
    + apply firstn_skipn.
    + rewrite length_skipn. cbn [List.length] in *. lia.
Qed.

(** The slices are the whole body, in order: the loop ran to its end. *)
Lemma iter_slices_concat (s : list byte) (n : nat) : List.concat (iter_slices s n) = s.
Proof.
  unfold iter_slices. destruct s as [|b s]; [destruct n; reflexivity|].
  apply iter_slices_fuel_concat; [|lia].
  destruct n; simpl; lia.
Qed.

Lemma iter_slices_cons (b : byte) (s : list byte) (n : nat) :
  exists chunk rest, iter_slices (b :: s) n = chunk :: rest.
Proof. unfold iter_slices. simpl. eauto. Qed.

Lemma Response_iter_empty (r : response) : content r = [] -> Response_iter r = [].
Proof. unfold Response_iter. intros ->. reflexivity. Qed.

Lemma Response_iter_chunk (r : response) :
  content r <> [] -> exists chunk rest, Response_iter r = PBytes chunk :: rest.
Proof.
  unfold Response_iter. destruct (content r) as [|b s]; [congruence|]. intros _.
  destruct (iter_slices_cons b s 128) as [chunk [rest ->]]. simpl map. eauto.
Qed.

(** Indexing the chunks of a non-empty body by a [str] fails on the first. *)
Lemma rmap_getitem_chunks (r : response) (key : string) :
  rmap (fun entry => py_getitem entry key) (Response_iter r) =
  match content r with
  | [] => Ret []
  | _ :: _ => Raise TypeError
  end.
Proof.
  destruct (content r) as [|b s] eqn:E.
  - rewrite Response_iter_empty by exact E. reflexivity.
  - destruct (Response_iter_chunk r) as [chunk [rest ->]]; [congruence|]. reflexivity.
Qed.

(** ** Running a function on a given reply *)

Ltac unfold_monad :=
  unfold extract, json, Response_json, requests_get, requests_post, requests_delete,
    http, logging_info, logging_error, print, when, emit, lift, ret, bind, answering.

Ltac split_if :=
  match goal with
  | |- context [if ?c then _ else _] => destruct c
  end.

(** Evaluate, rewriting with the facts [rw] about the reply and splitting on
    the conditions that only decide whether a record is logged. *)
Ltac exec rw := unfold_monad; repeat (cbn; first [progress rw | split_if]); cbn.

Ltac in_trace := unfold logged; cbn; repeat first [left; reflexivity | right].

Ltac not_in_trace := unfold logged; cbn; intuition discriminate.

(** The single request of an operation: skip what precedes the call, then
    check that nothing after it issues another. *)
Ltac sent_once :=
  rewrite ?sent_logging_then, ?sent_print_then, ?sent_lift_then; cbv beta zeta;
  apply sent_http_then; intro; auto 40 with silent.

#[local] Arguments Response_iter : simpl never.

Section Properties.

Variable json_loads : decoder.

(** The empty body is not a JSON document. *)
Hypothesis json_loads_empty : json_loads [] = None.

(** *** Operations that test for a key and then index it *)

Lemma get_token_missing_key r d client_id client_secret :
  json_loads (content r) = Some (PDict d) ->
  dict_get "access_token" d = None ->
  logs_then_KeyError "No token received" "access_token"
    (get_token json_loads client_id client_secret (answering r)).
Proof.
  intros Hj Hk. unfold logs_then_KeyError, get_token, json, Response_json.
  exec ltac:(rewrite ?Hj, ?Hk); (split; [in_trace | reflexivity]).
Qed.

Lemma add_devices_missing_key r d new_ids new_acs token :
  json_loads (content r) = Some (PDict d) ->
  dict_get "DevicesPassed" d = None ->
  List.length new_ids = List.length new_acs ->
  logs_then_KeyError "Failed to add any devices" "DevicesPassed"
    (add_devices json_loads new_ids new_acs token (answering r)).
Proof.
  intros Hj Hk Hlen. unfold logs_then_KeyError, add_devices, extract, json, Response_json.
  rewrite dev_code_pairs_total by lia.
  exec ltac:(rewrite ?Hj, ?Hk); (split; [in_trace | reflexivity]).
Qed.

Lemma create_endpoint_missing_key r d token devv_url :
  json_loads (content r) = Some (PDict d) ->
  dict_get "EndpointId" d = None ->
  logs_then_KeyError "EndpointId is missing from json response in create_endpoint()"
    "EndpointId" (create_endpoint json_loads token devv_url (answering r)).
Proof.
  intros Hj Hk. unfold logs_then_KeyError, create_endpoint, json, Response_json.
  exec ltac:(rewrite ?Hj, ?Hk); (split; [in_trace | reflexivity]).
Qed.

Lemma assign_to_endpoint_missing_key r d device_ids endpoint_id token :
  json_loads (content r) = Some (PDict d) ->
  dict_get "DevicePassed" d = None ->
  logs_then_KeyError "Failed to assign devices to endpoint" "DevicePassed"
    (assign_to_endpoint json_loads device_ids endpoint_id token (answering r)).
Proof.
  intros Hj Hk. unfold logs_then_KeyError, assign_to_endpoint, extract, json, Response_json.
  exec ltac:(rewrite ?Hj, ?Hk); (split; [in_trace | reflexivity]).
Qed.

Lemma delete_from_endpoint_missing_key r d device_ids endpoint_id token :
  json_loads (content r) = Some (PDict d) ->
  dict_get "DevicePassed" d = None ->
  logs_then_KeyError "Failed to delete (devices not found)" "DevicePassed"
    (delete_from_endpoint json_loads device_ids endpoint_id token (answering r)).
Proof.
  intros Hj Hk. unfold logs_then_KeyError, delete_from_endpoint, extract, json, Response_json.
  exec ltac:(rewrite ?Hj, ?Hk); (split; [in_trace | reflexivity]).
Qed.

Lemma delete_endpoints_missing_key r d kill_points token :
  json_loads (content r) = Some (PDict d) ->
  dict_get "EndpointsDeleted" d = None ->
  logs_then_KeyError "Endpoints not found" "EndpointsDeleted"
    (delete_endpoints json_loads kill_points token (answering r)).
Proof.
  intros Hj Hk. unfold logs_then_KeyError, delete_endpoints, extract, json, Response_json.
  exec ltac:(rewrite ?Hj, ?Hk); (split; [in_trace | reflexivity]).
Qed.

(** The two branches of [create_oauth_endpoint] on a missing
    ["EndpointId"]. *)
Lemma create_oauth_endpoint_rejected r d x devv_url auth_url token token_type token_key :
  json_loads (content r) = Some (PDict d) ->
  dict_get "EndpointId" d = None ->
  dict_get "EndpointError" d = Some x ->
  let run := create_oauth_endpoint json_loads devv_url auth_url token token_type token_key
               (answering r) in
  logged ERROR "Failed to get a token from AuthUrl with given parameters, response from AuthUrl was 400" (fst run) /\
  ~ logged ERROR "EndpointId is missing from json response in create_oauth_endpoint()" (fst run) /\
  snd run = Raise (KeyError "EndpointId").
Proof.
  intros Hj Hk He. unfold create_oauth_endpoint, json, Response_json.
  exec ltac:(rewrite ?Hj, ?Hk, ?He);
    (split; [in_trace | split; [not_in_trace | reflexivity]]).
Qed.

Lemma create_oauth_endpoint_absent r d devv_url auth_url token token_type token_key :
  json_loads (content r) = Some (PDict d) ->
  dict_get "EndpointId" d = None ->
  dict_get "EndpointError" d = None ->
  let run := create_oauth_endpoint json_loads devv_url auth_url token token_type token_key
               (answering r) in
  logged ERROR "EndpointId is missing from json response in create_oauth_endpoint()" (fst run) /\
  ~ logged ERROR "Failed to get a token from AuthUrl with given parameters, response from AuthUrl was 400" (fst run) /\
  snd run = Raise (KeyError "EndpointId").
Proof.
  intros Hj Hk He. unfold create_oauth_endpoint, json, Response_json.
  exec ltac:(rewrite ?Hj, ?Hk, ?He);
    (split; [in_trace | split; [not_in_trace | reflexivity]]).
Qed.

(** C1, as the code has it: when the body is a JSON object without the
    key an operation tests for, the operation writes its error record to
    the log and then fails in the lookup of that very key with
    [KeyError]; no other failure is signalled to the caller. *)
Theorem missing_key_logged_then_KeyError (r : response) (d : list (string * pyval)) :
  json_loads (content r) = Some (PDict d) ->
  (dict_get "access_token" d = None ->
     forall client_id client_secret,
       logs_then_KeyError "No token received" "access_token"
         (get_token json_loads client_id client_secret (answering r))) /\
  (dict_get "DevicesPassed" d = None ->
     forall new_ids new_acs token,
       List.length new_ids = List.length new_acs ->
       logs_then_KeyError "Failed to add any devices" "DevicesPassed"
         (add_devices json_loads new_ids new_acs token (answering r))) /\
  (dict_get "EndpointId" d = None ->
     forall token devv_url,
       logs_then_KeyError "EndpointId is missing from json response in create_endpoint()"
         "EndpointId" (create_endpoint json_loads token devv_url (answering r))) /\
  (dict_get "EndpointId" d = None ->
     forall devv_url auth_url token token_type token_key,
       logs_then_KeyError
         (match dict_get "EndpointError" d with
          | Some _ => "Failed to get a token from AuthUrl with given parameters, response from AuthUrl was 400"
          | None => "EndpointId is missing from json response in create_oauth_endpoint()"
          end)
         "EndpointId"
         (create_oauth_endpoint json_loads devv_url auth_url token token_type token_key
            (answering r))) /\
  (dict_get "DevicePassed" d = None ->
     forall device_ids endpoint_id token,
       logs_then_KeyError "Failed to assign devices to endpoint" "DevicePassed"
         (assign_to_endpoint json_loads device_ids endpoint_id token (answering r))) /\
  (dict_get "DevicePassed" d = None ->
     forall device_ids endpoint_id token,
       logs_then_KeyError "Failed to delete (devices not found)" "DevicePassed"
         (delete_from_endpoint json_loads device_ids endpoint_id token (answering r))) /\
  (dict_get "EndpointsDeleted" d = None ->
     forall kill_points token,
       logs_then_KeyError "Endpoints not found" "EndpointsDeleted"
         (delete_endpoints json_loads kill_points token (answering r))).
Proof.
  intro Hj. repeat apply conj; intros Hk; intros.
  - eapply get_token_missing_key; eauto.
  - eapply add_devices_missing_key; eauto.
  - eapply create_endpoint_missing_key; eauto.
  - destruct (dict_get "EndpointError" d) as [x|] eqn:He.
    + destruct (create_oauth_endpoint_rejected r d x devv_url auth_url token
                  token_type token_key Hj Hk He) as [Hlog [_ Hout]].
      split; assumption.
    + destruct (create_oauth_endpoint_absent r d devv_url auth_url token
                  token_type token_key Hj Hk He) as [Hlog [_ Hout]].
      split; assumption.
  - eapply assign_to_endpoint_missing_key; eauto.
  - eapply delete_from_endpoint_missing_key; eauto.
  - eapply delete_endpoints_missing_key; eauto.
Qed.

(** *** [create_oauth_endpoint] *)

(** C6, as the code has it: when ["EndpointId"] is missing,
    [create_oauth_endpoint] raises the same [KeyError] whether or not the
    reply carries ["EndpointError"]; the two cases differ only in the
    error record written to the log. *)
Theorem create_oauth_endpoint_rejection_only_logged
    (r : response) (d : list (string * pyval))
    (devv_url auth_url token token_type token_key : string) :
  json_loads (content r) = Some (PDict d) ->
  dict_get "EndpointId" d = None ->
  let run := create_oauth_endpoint json_loads devv_url auth_url token token_type token_key
               (answering r) in
  snd run = Raise (KeyError "EndpointId") /\
  (dict_get "EndpointError" d <> None ->
     logged ERROR "Failed to get a token from AuthUrl with given parameters, response from AuthUrl was 400" (fst run) /\
     ~ logged ERROR "EndpointId is missing from json response in create_oauth_endpoint()" (fst run)) /\
  (dict_get "EndpointError" d = None ->
     logged ERROR "EndpointId is missing from json response in create_oauth_endpoint()" (fst run) /\
     ~ logged ERROR "Failed to get a token from AuthUrl with given parameters, response from AuthUrl was 400" (fst run)).
Proof.
  intros Hj Hk run. subst run.
  destruct (dict_get "EndpointError" d) as [x|] eqn:He.
  - destruct (create_oauth_endpoint_rejected r d x devv_url auth_url token
                token_type token_key Hj Hk He) as [Hlog [Hnot Hout]].
    split; [exact Hout|]. split; [intros _; split; assumption | discriminate].
  - destruct (create_oauth_endpoint_absent r d devv_url auth_url token
                token_type token_key Hj Hk He) as [Hlog [Hnot Hout]].
    split; [exact Hout|]. split; [congruence | intros _; split; assumption].
Qed.

(** *** [get_token] *)

Lemma get_token_returns_bound_value r client_id client_secret v :
  snd (get_token json_loads client_id client_secret (answering r)) = Ret v ->
  exists d, json_loads (content r) = Some (PDict d) /\ dict_get "access_token" d = Some v.
Proof.
  unfold get_token. unfold_monad. cbn.
  destruct (json_loads (content r)) as [j|] eqn:Hj; cbn; [|discriminate].
  destruct j; cbn; try (repeat (split_if; cbn); discriminate).
  destruct (dict_get "access_token" d) as [x|] eqn:Hk; cbn;
    repeat (split_if; cbn); intro H; inversion H; subst; eauto.
Qed.

(** C7, as the code has it: on a reply whose JSON object has no
    ["access_token"], [get_token] writes "No token received" to the log and
    fails with the [KeyError] of the lookup, not with an authentication
    error; it returns a value only when the key is bound, and then the
    bound value. *)
Theorem get_token_without_access_token (r : response) (client_id client_secret : string) :
  (forall d,
     json_loads (content r) = Some (PDict d) ->
     dict_get "access_token" d = None ->
     logs_then_KeyError "No token received" "access_token"
       (get_token json_loads client_id client_secret (answering r))) /\
  (forall v,
     snd (get_token json_loads client_id client_secret (answering r)) = Ret v ->
     exists d, json_loads (content r) = Some (PDict d) /\ dict_get "access_token" d = Some v).
Proof.
  split.
  - intros d Hj Hk. apply get_token_missing_key with (d := d); assumption.
  - intro v. apply get_token_returns_bound_value.
Qed.

(** *** [print_version] *)

(** C8 on the code: given a reply whose JSON object binds ["Version"],
    [print_version] writes the version to the log and returns [None]; the
    version is not its result. *)
Theorem print_version_returns_None (r : response) (d : list (string * pyval)) (v : pyval) :
  json_loads (content r) = Some (PDict d) ->
  dict_get "Version" d = Some v ->
  In (EvLog INFO "Version: {}" [v]) (fst (print_version json_loads (answering r))) /\
  snd (print_version json_loads (answering r)) = Ret PNone.
Proof.
  intros Hj Hk. unfold print_version.
  exec ltac:(rewrite ?Hj, ?Hk); (split; [in_trace | reflexivity]).
Qed.

(** *** [get_endpoints] *)

(** The loop that logs the listed endpoints runs to its end when every
    entry is an object. *)
Lemma for_each_found (entries : list pyval) (net : network) :
  Forall is_object entries ->
  exists t, for_each entries log_found net = (t, Ret tt).
Proof.
  induction 1 as [|entry entries [fields ->] _ [t IH]].
  - exists []. reflexivity.
  - exists (EvLog INFO "Found: {}" [PList (map snd fields)] :: t).
    simpl for_each. unfold bind. rewrite IH. reflexivity.
Qed.

(** C9, as the code has it: [get_endpoints] tests for ["EndpointId"] but
    reads ["Endpoints"]; on a reply whose JSON object has no top-level
    ["EndpointId"] and binds ["Endpoints"] to a list of objects, the
    missing-data error is logged and that list is returned all the same. *)
Theorem get_endpoints_logs_error_and_returns
    (token : string) (r : response) (d : list (string * pyval)) (entries : list pyval) :
  json_loads (content r) = Some (PDict d) ->
  dict_get "EndpointId" d = None ->
  dict_get "Endpoints" d = Some (PList entries) ->
  Forall is_object entries ->
  logged ERROR "Endpoints are missing from json response in get_endpoints()"
    (fst (get_endpoints json_loads token (answering r))) /\
  snd (get_endpoints json_loads token (answering r)) = Ret (PList entries).
Proof.
  intros Hj Hid Hlist Hobj.
  destruct (for_each_found entries (fun _ => Some r) Hobj) as [t Ht].
  unfold get_endpoints.
  exec ltac:(rewrite ?Hj, ?Hid, ?Hlist, ?Ht); (split; [|reflexivity]);
    unfold logged; rewrite ?in_app_iff; cbn; tauto.
Qed.

(** *** Operations that use the raw response as if it were its body *)

Lemma get_devices_raises r token :
  snd (get_devices json_loads token (answering r)) = Raise TypeError.
Proof.
  unfold get_devices, Response_getitem. unfold_monad. cbn.
  repeat (split_if; cbn); reflexivity.
Qed.

Lemma get_devices_by_location_raises r token :
  snd (get_devices_by_location json_loads token (answering r)) = raw_iteration_failure r.
Proof using json_loads_empty.
  unfold get_devices_by_location, raw_iteration_failure. unfold_monad. cbn.
  rewrite rmap_getitem_chunks.
  destruct (content r); cbn; rewrite ?json_loads_empty;
    repeat (split_if; cbn); reflexivity.
Qed.

Lemma get_locations_raises r token :
  snd (get_locations json_loads token (answering r)) = raw_iteration_failure r.
Proof using json_loads_empty.
  unfold get_locations, raw_iteration_failure. unfold_monad. cbn.
  rewrite rmap_getitem_chunks.
  destruct (content r); cbn; rewrite ?json_loads_empty;
    repeat (split_if; cbn); reflexivity.
Qed.

Lemma get_location_reports_raises r token :
  snd (get_location_reports json_loads token (answering r)) = raw_iteration_failure r.
Proof using json_loads_empty.
  unfold get_location_reports, raw_iteration_failure. unfold_monad. cbn.
  rewrite rmap_getitem_chunks.
  destruct (content r); cbn; rewrite ?json_loads_empty;
    repeat (split_if; cbn); reflexivity.
Qed.

Lemma raw_iteration_failure_raises r :
  exists e, raw_iteration_failure r = Raise e.
Proof. unfold raw_iteration_failure. destruct (content r); eauto. Qed.

(** C2, as the code has it: none of the four operations returns.
    [get_devices] always fails with [TypeError] (a response cannot be
    subscripted).  The other three iterate the response, that is the
    128-byte chunks of its body: on a non-empty body indexing the first
    chunk fails with [TypeError]; on an empty body there is nothing to
    index and the final [json()] fails with a decoding error instead. *)
Theorem raw_response_operations_never_return (token : string) (r : response) :
  snd (get_devices json_loads token (answering r)) = Raise TypeError /\
  snd (get_devices_by_location json_loads token (answering r)) = raw_iteration_failure r /\
  snd (get_locations json_loads token (answering r)) = raw_iteration_failure r /\
  snd (get_location_reports json_loads token (answering r)) = raw_iteration_failure r /\
  never_returns (get_devices json_loads token (answering r)) /\
  never_returns (get_devices_by_location json_loads token (answering r)) /\
  never_returns (get_locations json_loads token (answering r)) /\
  never_returns (get_location_reports json_loads token (answering r)).
Proof using json_loads_empty.
  pose proof (get_devices_raises r token) as H1.
  pose proof (get_devices_by_location_raises r token) as H2.
  pose proof (get_locations_raises r token) as H3.
  pose proof (get_location_reports_raises r token) as H4.
  destruct (raw_iteration_failure_raises r) as [e He].
  unfold never_returns. rewrite H1, H2, H3, H4, He.
  repeat apply conj; try reflexivity; intros v; discriminate.
Qed.

(** *** The request of [add_devices] and its result *)

Lemma add_devices_request new_ids new_acs token net :
  List.length new_ids <= List.length new_acs ->
  sent (fst (add_devices json_loads new_ids new_acs token net)) =
  [ mkRequest POST (base ++ "/account/AddDevices")
      [ ("Authorization", PStr (bearer token));
        ("devices", PList (map (dev_code_dict new_ids new_acs)
                               (range (List.length new_ids)))) ]
      [] None ].
Proof.
  intro Hlen. unfold add_devices, requests_post.
  rewrite dev_code_pairs_total by exact Hlen. sent_once.
Qed.

Lemma add_devices_returns_listed r d entries passed new_ids new_acs token :
  List.length new_ids <= List.length new_acs ->
  json_loads (content r) = Some (PDict d) ->
  dict_get "DevicesPassed" d = Some (PList entries) ->
  Forall2 (entry_with "DeviceId") entries passed ->
  snd (add_devices json_loads new_ids new_acs token (answering r)) = Ret (PList passed).
Proof.
  intros Hlen Hj Hk Hentries.
  pose proof (rmap_getitem_entries _ _ _ Hentries) as Hpassed.
  unfold add_devices. rewrite dev_code_pairs_total by exact Hlen.
  exec ltac:(rewrite ?Hj, ?Hk, ?Hpassed); reflexivity.
Qed.


(** C3 on the code: eight operations send the credential as the header
    [Authorization: Bearer <token>]; [add_devices], [create_endpoint] and
    [create_oauth_endpoint] send no header and put the same pair among
    the query parameters. *)
Theorem bearer_credential_placement (token : string) (net : network) :
  (forall device_ids endpoint_id,
     bearer_in_header token
       (fst (assign_to_endpoint json_loads device_ids endpoint_id token net))) /\
  (forall device_ids endpoint_id,
     bearer_in_header token
       (fst (delete_from_endpoint json_loads device_ids endpoint_id token net))) /\
  (forall kill_points,
     bearer_in_header token (fst (delete_endpoints json_loads kill_points token net))) /\
  bearer_in_header token (fst (get_endpoints json_loads token net)) /\
  bearer_in_header token (fst (get_devices json_loads token net)) /\
  bearer_in_header token (fst (get_devices_by_location json_loads token net)) /\
  bearer_in_header token (fst (get_locations json_loads token net)) /\
  bearer_in_header token (fst (get_location_reports json_loads token net)) /\
  (forall new_ids new_acs,
     List.length new_ids <= List.length new_acs ->
     bearer_in_params token (fst (add_devices json_loads new_ids new_acs token net))) /\
  (forall devv_url,
     bearer_in_params token (fst (create_endpoint json_loads token devv_url net))) /\
  (forall devv_url auth_url token_type token_key,
     bearer_in_params token
       (fst (create_oauth_endpoint json_loads devv_url auth_url token token_type token_key
               net))).
Proof.
  repeat apply conj; intros.
  - eexists. split; [unfold assign_to_endpoint, requests_post; sent_once|]. split; reflexivity.
  - eexists. split; [unfold delete_from_endpoint, requests_delete; sent_once|].
    split; reflexivity.
  - eexists. split; [unfold delete_endpoints, requests_delete; sent_once|]. split; reflexivity.
  - eexists. split; [unfold get_endpoints, requests_get; sent_once|]. split; reflexivity.
  - eexists. split; [unfold get_devices, requests_get; sent_once|]. split; reflexivity.
  - eexists. split; [unfold get_devices_by_location, requests_get; sent_once|].
    split; reflexivity.
  - eexists. split; [unfold get_locations, requests_get; sent_once|]. split; reflexivity.
  - eexists. split; [unfold get_location_reports, requests_get; sent_once|].
    split; reflexivity.
  - eexists. split; [apply add_devices_request; assumption|]. split; reflexivity.
  - eexists. split; [unfold create_endpoint, requests_post; sent_once|]. split; reflexivity.
  - eexists. split; [unfold create_oauth_endpoint, requests_post; sent_once|].
    split; reflexivity.
Qed.


(** C4, as the code has it: [add_devices] returns the ids the reply lists
    and does not compare them with its input; when the reply lists only
    submitted ids, none more often than it was submitted, the result is no
    longer than the input and each of its elements is one of the input
    ids. *)
Theorem add_devices_result_within_input
    (new_ids new_acs : list string) (token : string)
    (r : response) (d : list (string * pyval)) (entries passed : list pyval) :
  List.length new_ids = List.length new_acs ->
  json_loads (content r) = Some (PDict d) ->
  dict_get "DevicesPassed" d = Some (PList entries) ->
  Forall2 (entry_with "DeviceId") entries passed ->
  selected_from passed (map PStr new_ids) ->
  snd (add_devices json_loads new_ids new_acs token (answering r)) = Ret (PList passed) /\
  List.length passed <= List.length new_ids /\
  (forall x, In x passed -> exists id, x = PStr id /\ In id new_ids).
Proof.
  intros Hlen Hj Hk Hentries [rest Hperm]. split; [|split].
  - apply add_devices_returns_listed with (d := d) (entries := entries);
      [lia | assumption ..].
  - apply Permutation_length in Hperm.
    rewrite length_app, length_map in Hperm. lia.
  - intros x Hx.
    assert (Hin : In x (map PStr new_ids)).
    { apply (Permutation_in x Hperm). apply in_or_app. left. exact Hx. }
    apply in_map_iff in Hin. destruct Hin as [id [Hid Hin]]. exists id. auto.
Qed.

(** C10: with fewer activation codes than ids, [add_devices] raises
    [IndexError] after its first log record and before any request is
    issued; with more activation codes than ids, it behaves as on the
    activation codes cut to the number of ids, and its request carries one
    pair per id. *)
Theorem add_devices_unequal_lengths
    (new_ids new_acs : list string) (token : string) (net : network) :
  (List.length new_acs < List.length new_ids ->
     add_devices json_loads new_ids new_acs token net =
     ([EvLog INFO "Adding devices..." []], Raise IndexError)) /\
  (List.length new_ids < List.length new_acs ->
     add_devices json_loads new_ids new_acs token net =
     add_devices json_loads new_ids (firstn (List.length new_ids) new_acs) token net /\
     sent (fst (add_devices json_loads new_ids new_acs token net)) =
     [ mkRequest POST (base ++ "/account/AddDevices")
         [ ("Authorization", PStr (bearer token));
           ("devices", PList (map (dev_code_dict new_ids new_acs)
                                  (range (List.length new_ids)))) ]
         [] None ]).
Proof.
  split; intro Hlen.
  - unfold add_devices. rewrite dev_code_pairs_short by exact Hlen. reflexivity.
  - split; [|apply add_devices_request; lia].
    unfold add_devices.
    rewrite (rmap_ext_in (dev_code_pair new_ids (firstn (List.length new_ids) new_acs))
                         (dev_code_pair new_ids new_acs)); [reflexivity|].
    intros i Hi. apply in_seq in Hi. apply dev_code_pair_truncated. lia.
Qed.

End Properties.

(** ** The theorems on concrete replies *)

(** On the reply [{}] three of the operations log and raise as stated. *)
Lemma missing_key_logged_then_KeyError_witness :
  logs_then_KeyError "No token received" "access_token"
    (get_token sample_loads "client" "secret" (answering (reply 200 doc_empty_object))) /\
  logs_then_KeyError "Failed to add any devices" "DevicesPassed"
    (add_devices sample_loads [id_a1] [ac_1] "tok" (answering (reply 200 doc_empty_object))) /\
  logs_then_KeyError "Endpoints not found" "EndpointsDeleted"
    (delete_endpoints sample_loads ["ep-1"] "tok" (answering (reply 200 doc_empty_object))).
Proof.
  destruct (missing_key_logged_then_KeyError sample_loads (reply 200 doc_empty_object) [])
    as (Htoken & Hadd & _ & _ & _ & _ & Hdel); [reflexivity|].
  split; [|split].
  - apply Htoken. reflexivity.
  - apply Hadd; reflexivity.
  - apply Hdel. reflexivity.
Defined.

(** C1 fails on the code: on the reply [{}], [get_token] raises the
    [KeyError] of the missing key, a lookup failure. *)
Lemma get_token_missing_key_raises_KeyError :
  sample_loads (content (reply 200 doc_empty_object)) = Some (PDict []) /\
  dict_get "access_token" [] = None /\
  snd (get_token sample_loads "client" "secret" (answering (reply 200 doc_empty_object))) =
    Raise (KeyError "access_token") /\
  ~ signals_distinct_error
      (get_token sample_loads "client" "secret" (answering (reply 200 doc_empty_object))).
Proof.
  repeat apply conj; try reflexivity.
  intros [e [Hraise Hkind]]. vm_compute in Hraise.
  injection Hraise as <-. discriminate Hkind.
Qed.

(** With the sample decoder, on the non-empty body [{}]. *)
Lemma raw_response_operations_never_return_witness :
  snd (get_devices sample_loads "tok" (answering (reply 200 doc_empty_object))) =
    Raise TypeError /\
  snd (get_locations sample_loads "tok" (answering (reply 200 doc_empty_object))) =
    Raise TypeError /\
  never_returns (get_location_reports sample_loads "tok" (answering (reply 200 doc_empty_object))).
Proof.
  destruct (raw_response_operations_never_return sample_loads eq_refl "tok"
              (reply 200 doc_empty_object))
    as (Hdev & _ & Hloc & _ & _ & _ & _ & Hrep).
  split; [exact Hdev|]. split; [exact Hloc | exact Hrep].
Defined.

(** C2 fails on the code: on a reply with an empty body, [get_locations]
    iterates no chunk and ends in the decoding error of [json()], not in a
    [TypeError]. *)
Lemma get_locations_empty_body_raises_JSONDecodeError :
  content (reply 401 "") = [] /\
  snd (get_locations sample_loads "tok" (answering (reply 401 ""))) = Raise JSONDecodeError /\
  snd (get_locations sample_loads "tok" (answering (reply 401 ""))) <> Raise TypeError.
Proof.
  split; [reflexivity|]. split; [reflexivity|]. vm_compute. discriminate.
Qed.

(** One operation of each kind. *)
Lemma bearer_credential_placement_witness :
  bearer_in_params "tok"
    (fst (add_devices sample_loads [id_a1] [ac_1] "tok" (answering (reply 200 doc_passed_one)))) /\
  bearer_in_header "tok"
    (fst (get_endpoints sample_loads "tok" (answering (reply 200 doc_endpoints)))).
Proof.
  destruct (bearer_credential_placement sample_loads "tok" (answering (reply 200 doc_passed_one)))
    as (_ & _ & _ & _ & _ & _ & _ & _ & Hadd & _ & _).
  destruct (bearer_credential_placement sample_loads "tok" (answering (reply 200 doc_endpoints)))
    as (_ & _ & _ & Hget & _).
  split; [apply Hadd; simpl; lia | exact Hget].
Defined.

(** Two devices submitted, the first one listed as passed. *)
Lemma add_devices_result_within_input_witness :
  snd (add_devices sample_loads [id_a1; id_a2] [ac_1; ac_2] "tok"
         (answering (reply 200 doc_passed_one))) = Ret (PList [PStr id_a1]) /\
  List.length [PStr id_a1] <= List.length [id_a1; id_a2] /\
  (forall x, In x [PStr id_a1] -> exists id, x = PStr id /\ In id [id_a1; id_a2]).
Proof.
  apply (add_devices_result_within_input sample_loads [id_a1; id_a2] [ac_1; ac_2] "tok"
           (reply 200 doc_passed_one)
           [("DevicesPassed", PList [PDict [("DeviceId", PStr id_a1)]])]
           [PDict [("DeviceId", PStr id_a1)]] [PStr id_a1]).
  - reflexivity.
  - reflexivity.
  - reflexivity.
  - constructor; [|constructor]. exists [("DeviceId", PStr id_a1)]. split; reflexivity.
  - exists [PStr id_a2]. apply Permutation_refl.
Defined.

(** C4 fails on the code: the reply lists two ids that were not submitted,
    and [add_devices] returns both for an input of one id. *)
Lemma add_devices_returns_foreign_ids :
  List.length [id_a1] = List.length [ac_1] /\
  snd (add_devices sample_loads [id_a1] [ac_1] "tok" (answering (reply 200 doc_passed_foreign))) =
    Ret (PList [PStr id_b7; PStr id_b8]) /\
  ~ List.length [PStr id_b7; PStr id_b8] <= List.length [id_a1] /\
  ~ In id_b7 [id_a1].
Proof.
  split; [reflexivity|]. split; [reflexivity|]. split.
  - simpl. lia.
  - simpl. intros [H|[]]. discriminate H.
Qed.


(** The auth URL refused the exchange. *)
Lemma create_oauth_endpoint_rejection_only_logged_witness :
  snd (create_oauth_endpoint sample_loads "https://example.org/in" "https://example.org/auth"
         "tok" "Bearer" "access_token" (answering (reply 400 doc_endpoint_error))) =
    Raise (KeyError "EndpointId") /\
  logged ERROR "Failed to get a token from AuthUrl with given parameters, response from AuthUrl was 400"
    (fst (create_oauth_endpoint sample_loads "https://example.org/in" "https://example.org/auth"
            "tok" "Bearer" "access_token" (answering (reply 400 doc_endpoint_error)))).
Proof.
  destruct (create_oauth_endpoint_rejection_only_logged sample_loads
              (reply 400 doc_endpoint_error)
              [("EndpointError", PStr "AuthUrl returned 400")]
              "https://example.org/in" "https://example.org/auth" "tok" "Bearer" "access_token"
              eq_refl eq_refl)
    as (Hraise & Hrejected & _).
  split; [exact Hraise|]. apply Hrejected. discriminate.
Defined.

(** C6 fails on the code: a reply that carries ["EndpointError"] and a
    reply that carries neither key make [create_oauth_endpoint] fail with
    the same exception. *)
Lemma create_oauth_endpoint_same_exception :
  sample_loads (content (reply 400 doc_endpoint_error)) =
    Some (PDict [("EndpointError", PStr "AuthUrl returned 400")]) /\
  sample_loads (content (reply 500 doc_message)) =
    Some (PDict [("Message", PStr "Internal error")]) /\
  snd (create_oauth_endpoint sample_loads "https://example.org/in" "https://example.org/auth"
         "tok" "Bearer" "access_token" (answering (reply 400 doc_endpoint_error))) =
    Raise (KeyError "EndpointId") /\
  snd (create_oauth_endpoint sample_loads "https://example.org/in" "https://example.org/auth"
         "tok" "Bearer" "access_token" (answering (reply 500 doc_message))) =
    Raise (KeyError "EndpointId").
Proof. repeat apply conj; reflexivity. Qed.

(** Refused credentials: the reply names the error and carries no token. *)
Lemma get_token_without_access_token_witness :
  logs_then_KeyError "No token received" "access_token"
    (get_token sample_loads "client" "wrong" (answering (reply 401 doc_invalid_client))).
Proof.
  destruct (get_token_without_access_token sample_loads (reply 401 doc_invalid_client)
              "client" "wrong") as [Hmissing _].
  apply (Hmissing [("error", PStr "invalid_client")]); reflexivity.
Defined.

(** C7 fails on the code: with refused credentials [get_token] fails with
    the [KeyError] of the missing key, a lookup failure and not an
    authentication error. *)
Lemma get_token_invalid_client_raises_KeyError :
  sample_loads (content (reply 401 doc_invalid_client)) =
    Some (PDict [("error", PStr "invalid_client")]) /\
  snd (get_token sample_loads "client" "wrong" (answering (reply 401 doc_invalid_client))) =
    Raise (KeyError "access_token") /\
  is_lookup_error (KeyError "access_token") = true /\
  ~ signals_distinct_error
      (get_token sample_loads "client" "wrong" (answering (reply 401 doc_invalid_client))).
Proof.
  repeat apply conj; try reflexivity.
  intros [e [Hraise Hkind]]. vm_compute in Hraise.
  injection Hraise as <-. discriminate Hkind.
Qed.

(** The version is logged and [None] is returned. *)
Lemma print_version_returns_None_witness :
  In (EvLog INFO "Version: {}" [PStr "2.1.0"])
     (fst (print_version sample_loads (answering (reply 200 doc_version)))) /\
  snd (print_version sample_loads (answering (reply 200 doc_version))) = Ret PNone.
Proof.
  apply (print_version_returns_None sample_loads (reply 200 doc_version)
           [("Version", PStr "2.1.0")]); reflexivity.
Defined.

(** A listing of one endpoint. *)
Lemma get_endpoints_logs_error_and_returns_witness :
  logged ERROR "Endpoints are missing from json response in get_endpoints()"
    (fst (get_endpoints sample_loads "tok" (answering (reply 200 doc_endpoints)))) /\
  snd (get_endpoints sample_loads "tok" (answering (reply 200 doc_endpoints))) =
    Ret (PList [PDict [("EndpointId", PStr "ep-1");
                       ("URL", PStr "https://example.org/in");
                       ("DataType", PStr "json")]]).
Proof.
  apply (get_endpoints_logs_error_and_returns sample_loads "tok" (reply 200 doc_endpoints)
           [("Endpoints",
             PList [PDict [("EndpointId", PStr "ep-1");
                           ("URL", PStr "https://example.org/in");
                           ("DataType", PStr "json")]])]).
  - reflexivity.
  - reflexivity.
  - reflexivity.
  - constructor; [|constructor]. eexists. reflexivity.
Defined.

(** C9 fails on the code: a reply that binds ["Endpoints"] to [null] has
    the key and no ["EndpointId"], and [get_endpoints] raises in the loop
    over the endpoints instead of returning. *)
Lemma get_endpoints_null_listing_raises :
  sample_loads (content (reply 200 doc_endpoints_null)) = Some (PDict [("Endpoints", PNone)]) /\
  dict_get "EndpointId" [("Endpoints", PNone)] = None /\
  dict_get "Endpoints" [("Endpoints", PNone)] = Some PNone /\
  snd (get_endpoints sample_loads "tok" (answering (reply 200 doc_endpoints_null))) =
    Raise TypeError.
Proof. repeat apply conj; reflexivity. Qed.

(** One activation code short, and one in surplus. *)
Lemma add_devices_unequal_lengths_witness :
  add_devices sample_loads [id_a1; id_a2] [ac_1] "tok" (answering (reply 200 doc_passed_one)) =
    ([EvLog INFO "Adding devices..." []], Raise IndexError) /\
  add_devices sample_loads [id_a1] [ac_1; ac_2] "tok" (answering (reply 200 doc_passed_one)) =
    add_devices sample_loads [id_a1] [ac_1] "tok" (answering (reply 200 doc_passed_one)).
Proof.
  destruct (add_devices_unequal_lengths sample_loads [id_a1; id_a2] [ac_1] "tok"
              (answering (reply 200 doc_passed_one))) as [Hshort _].
  destruct (add_devices_unequal_lengths sample_loads [id_a1] [ac_1; ac_2] "tok"
              (answering (reply 200 doc_passed_one))) as [_ Hlong].
  split.
  - apply Hshort. simpl. lia.
  - apply Hlong. simpl. lia.
Defined.

(** ** Further properties of the module *)

(** A dict that binds a key is not empty, hence true. *)
Lemma bound_key_nonempty (k : string) (d : list (string * pyval)) (v : pyval) :
  dict_get k d = Some v ->
  match d with [] => false | _ :: _ => true end = true.
Proof. destruct d; [discriminate | reflexivity]. Qed.

Ltac no_errors :=
  let msg := fresh "msg" in
  let args := fresh "args" in
  let H := fresh "H" in
  intros msg args H; cbn in H; intuition discriminate.

Ltac fails_unreported_by rw :=
  unfold fails_unreported; exec rw; (split; [no_errors | reflexivity]).



Ltac not_an_object j Hno :=
  destruct j; try (exfalso; apply Hno; eexists; reflexivity).

(** Split on every test and lookup that the two sides share. *)
Ltac same_cases :=
  repeat (cbn;
    match goal with
    | |- ?a = ?a => reflexivity
    | |- context [match ?loads (content ?r) with _ => _ end] => destruct (loads (content r))
    | |- context [py_contains _ ?v] => is_var v; destruct v
    | |- context [py_getitem ?v _] => is_var v; destruct v
    | |- context [py_iter ?v] => is_var v; destruct v
    | |- context [match dict_get ?k ?d with _ => _ end] => destruct (dict_get k d)
    | |- context [match rmap ?f ?l with _ => _ end] => destruct (rmap f l)
    | |- context [if ?c then _ else _] => destruct c
    | |- context [match ?x with _ => _ end] => is_var x; destruct x
    end).

Lemma rmap_getitem_gap (key : string) (entries : list pyval) :
  listing_with_gap key entries ->
  rmap (fun item => py_getitem item key) entries = Raise (KeyError key).
Proof.
  intros (good & vals & fields & rest & -> & Hgood & Hgap).
  apply rmap_app_raise with (out := vals).
  - apply rmap_getitem_entries. exact Hgood.
  - simpl. rewrite Hgap. reflexivity.
Qed.

Lemma for_each_found_clean (entries : list pyval) (net : network) :
  Forall is_object entries ->
  exists t, for_each entries log_found net = (t, Ret tt) /\ no_error_logged t.
Proof.
  induction 1 as [|entry entries [fields ->] _ (t & IH & Hclean)].
  - exists []. split; [reflexivity | intros msg args []].
  - exists (EvLog INFO "Found: {}" [PList (map snd fields)] :: t).
    split.
    + simpl for_each. unfold bind. rewrite IH. reflexivity.
    + intros msg args [H|H]; [discriminate H | exact (Hclean msg args H)].
Qed.

Lemma for_each_found_stops (entries : list pyval) (net : network) :
  Exists (fun entry => ~ is_object entry) entries ->
  exists t, for_each entries log_found net = (t, Raise AttributeError).
Proof.
  induction entries as [|entry entries IH]; intro Hbad.
  - inversion Hbad.
  - destruct entry;
      try (eexists; simpl for_each; unfold bind; simpl; reflexivity).
    assert (Htail : Exists (fun entry => ~ is_object entry) entries).
    { inversion Hbad as [? ? Hhead|]; [|assumption].
      exfalso. apply Hhead. eexists. reflexivity. }
    destruct (IH Htail) as [t Ht].
    eexists. simpl for_each. unfold bind. rewrite Ht. simpl. reflexivity.
Qed.

(** A [str] is never equal to a chunk of bytes. *)
Lemma Response_contains_false (k : string) (r : response) : Response_contains k r = false.
Proof.
  unfold Response_contains, Response_iter.
  induction (iter_slices (content r) 128) as [|chunk chunks IH]; [reflexivity | exact IH].
Qed.

Lemma Response_bool_false_iff (r : response) :
  Response_bool r = false <-> (400 <= status_code r < 600)%Z.
Proof.
  unfold Response_bool. rewrite negb_false_iff, andb_true_iff, Z.leb_le, Z.ltb_lt.
  reflexivity.
Qed.

#[local] Arguments Response_contains : simpl never.
#[local] Arguments Response_bool : simpl never.

Ltac no_errors_with Hclean :=
  let msg := fresh "msg" in
  let args := fresh "args" in
  let H := fresh "H" in
  intros msg args H; cbn in H; rewrite ?in_app_iff in H; cbn in H;
  intuition (try discriminate); eapply Hclean; eassumption.

Section Replies.

Variable json_loads : decoder.

(** *** A well-formed token reply *)

(** X1: on a reply whose JSON object binds ["access_token"], [get_token]
    returns the bound value, whatever its type, writes that value to the
    log in the record "Token: {}", and logs no error. *)
Theorem get_token_returns_and_logs_token
    (r : response) (d : list (string * pyval)) (v : pyval) (client_id client_secret : string) :
  json_loads (content r) = Some (PDict d) ->
  dict_get "access_token" d = Some v ->
  returns_cleanly v (get_token json_loads client_id client_secret (answering r)) /\
  In (EvLog INFO "Token: {}" [v])
     (fst (get_token json_loads client_id client_secret (answering r))).
Proof.
  intros Hj Hk. pose proof (bound_key_nonempty _ _ _ Hk) as Hd.
  unfold returns_cleanly, get_token.
  exec ltac:(rewrite ?Hj, ?Hk, ?Hd).
  split; [split; [no_errors | reflexivity] | in_trace].
Qed.

(** *** The requests of the unauthenticated operations *)

(** X2: whatever the transport answers, [print_version] issues exactly one
    request, a bare GET of the version path, and [get_token] exactly one,
    a GET of the token path that carries the client id and the client
    secret as query parameters, beside the grant type and a content type,
    under the fixed basic-auth pair "user"/"pass" and without headers. *)
Theorem unauthenticated_requests (net : network) (client_id client_secret : string) :
  sent (fst (print_version json_loads net)) =
    [ mkRequest GET (base ++ "/account/GetVersion") [] [] None ] /\
  sent (fst (get_token json_loads client_id client_secret net)) =
    [ mkRequest GET (base ++ "/auth/RequestToken")
        [ ("grant_type", PStr "client_credentials");
          ("client_id", PStr client_id);
          ("client_secret", PStr client_secret);
          ("content-type", PStr "application/x-www-form-urlencoded") ]
        [] (Some ("user", "pass")) ].
Proof.
  split.
  - unfold print_version, requests_get. sent_once.
  - unfold get_token, requests_get. sent_once.
Qed.

(** *** A body that is not JSON *)

(** X3: when the body is not a JSON document, [get_token],
    [create_endpoint], [create_oauth_endpoint] and [get_endpoints] fail in
    their first [json()] call with the decoding error, before any of their
    checks: no error record is logged. *)
Theorem undecodable_body_fails_unreported (r : response) :
  json_loads (content r) = None ->
  (forall client_id client_secret,
     fails_unreported JSONDecodeError
       (get_token json_loads client_id client_secret (answering r))) /\
  (forall token devv_url,
     fails_unreported JSONDecodeError
       (create_endpoint json_loads token devv_url (answering r))) /\
  (forall devv_url auth_url token token_type token_key,
     fails_unreported JSONDecodeError
       (create_oauth_endpoint json_loads devv_url auth_url token token_type token_key
          (answering r))) /\
  (forall token,
     fails_unreported JSONDecodeError (get_endpoints json_loads token (answering r))).
Proof.
  intro Hj. repeat apply conj; intros.
  - unfold get_token. fails_unreported_by ltac:(rewrite ?Hj).
  - unfold create_endpoint. fails_unreported_by ltac:(rewrite ?Hj).
  - unfold create_oauth_endpoint. fails_unreported_by ltac:(rewrite ?Hj).
  - unfold get_endpoints. fails_unreported_by ltac:(rewrite ?Hj).
Qed.

(** X4: when the body is not a JSON document, [add_devices] (on lists of
    equal length), [assign_to_endpoint], [delete_from_endpoint] and
    [delete_endpoints] fail in their first [json()] call with the decoding
    error; no error record is logged. *)
Theorem undecodable_body_fails_unreported_listing (r : response) :
  json_loads (content r) = None ->
  (forall new_ids new_acs token,
     List.length new_ids = List.length new_acs ->
     fails_unreported JSONDecodeError
       (add_devices json_loads new_ids new_acs token (answering r))) /\
  (forall device_ids endpoint_id token,
     fails_unreported JSONDecodeError
       (assign_to_endpoint json_loads device_ids endpoint_id token (answering r))) /\
  (forall device_ids endpoint_id token,
     fails_unreported JSONDecodeError
       (delete_from_endpoint json_loads device_ids endpoint_id token (answering r))) /\
  (forall kill_points token,
     fails_unreported JSONDecodeError
       (delete_endpoints json_loads kill_points token (answering r))).
Proof.
  intro Hj. repeat apply conj; intros.
  - unfold add_devices. rewrite dev_code_pairs_total by lia.
    fails_unreported_by ltac:(rewrite ?Hj).
  - unfold assign_to_endpoint. fails_unreported_by ltac:(rewrite ?Hj).
  - unfold delete_from_endpoint. fails_unreported_by ltac:(rewrite ?Hj).
  - unfold delete_endpoints. fails_unreported_by ltac:(rewrite ?Hj).
Qed.

(** *** A JSON body that is not an object *)

(** X5: when the body is JSON but not an object (a list, a string, a
    number, a boolean or [null]), [get_token], [create_endpoint],
    [create_oauth_endpoint] and [get_endpoints] all fail with [TypeError]:
    the membership test or the indexing by a key is applied to a value that
    does not support it. *)
Theorem non_object_body_raises_TypeError (r : response) (j : pyval) :
  json_loads (content r) = Some j ->
  ~ is_object j ->
  (forall client_id client_secret,
     snd (get_token json_loads client_id client_secret (answering r)) = Raise TypeError) /\
  (forall token devv_url,
     snd (create_endpoint json_loads token devv_url (answering r)) = Raise TypeError) /\
  (forall devv_url auth_url token token_type token_key,
     snd (create_oauth_endpoint json_loads devv_url auth_url token token_type token_key
            (answering r)) = Raise TypeError) /\
  (forall token,
     snd (get_endpoints json_loads token (answering r)) = Raise TypeError).
Proof.
  intros Hj Hno. repeat apply conj; intros.
  - unfold get_token. not_an_object j Hno; exec ltac:(rewrite ?Hj); reflexivity.
  - unfold create_endpoint. not_an_object j Hno; exec ltac:(rewrite ?Hj); reflexivity.
  - unfold create_oauth_endpoint. not_an_object j Hno; exec ltac:(rewrite ?Hj); reflexivity.
  - unfold get_endpoints. not_an_object j Hno; exec ltac:(rewrite ?Hj); reflexivity.
Qed.

(** X6: when the body is JSON but not an object, [add_devices] (on lists
    of equal length), [assign_to_endpoint], [delete_from_endpoint] and
    [delete_endpoints] all fail with [TypeError]. *)
Theorem non_object_body_raises_TypeError_listing (r : response) (j : pyval) :
  json_loads (content r) = Some j ->
  ~ is_object j ->
  (forall new_ids new_acs token,
     List.length new_ids = List.length new_acs ->
     snd (add_devices json_loads new_ids new_acs token (answering r)) = Raise TypeError) /\
  (forall device_ids endpoint_id token,
     snd (assign_to_endpoint json_loads device_ids endpoint_id token (answering r)) =
       Raise TypeError) /\
  (forall device_ids endpoint_id token,
     snd (delete_from_endpoint json_loads device_ids endpoint_id token (answering r)) =
       Raise TypeError) /\
  (forall kill_points token,
     snd (delete_endpoints json_loads kill_points token (answering r)) = Raise TypeError).
Proof.
  intros Hj Hno. repeat apply conj; intros.
  - unfold add_devices. rewrite dev_code_pairs_total by lia.
    not_an_object j Hno; exec ltac:(rewrite ?Hj); reflexivity.
  - unfold assign_to_endpoint. not_an_object j Hno; exec ltac:(rewrite ?Hj); reflexivity.
  - unfold delete_from_endpoint. not_an_object j Hno; exec ltac:(rewrite ?Hj); reflexivity.
  - unfold delete_endpoints. not_an_object j Hno; exec ltac:(rewrite ?Hj); reflexivity.
Qed.

(** *** A JSON body that is false *)



(** *** A created endpoint *)

(** X9: on a reply whose JSON object binds ["EndpointId"],
    [create_endpoint] and [create_oauth_endpoint] log the id and return the
    whole object of the reply, not the id alone, without any error record;
    [create_oauth_endpoint] does so even when the object also carries
    ["EndpointError"]. *)
Theorem created_endpoint_returns_reply_object
    (r : response) (d : list (string * pyval)) (id : pyval) :
  json_loads (content r) = Some (PDict d) ->
  dict_get "EndpointId" d = Some id ->
  (forall token devv_url,
     returns_cleanly (PDict d) (create_endpoint json_loads token devv_url (answering r)) /\
     In (EvLog INFO "Endpoint ID: {}" [id])
        (fst (create_endpoint json_loads token devv_url (answering r)))) /\
  (forall devv_url auth_url token token_type token_key,
     returns_cleanly (PDict d)
       (create_oauth_endpoint json_loads devv_url auth_url token token_type token_key
          (answering r)) /\
     In (EvLog INFO "Endpoint ID: {}" [id])
        (fst (create_oauth_endpoint json_loads devv_url auth_url token token_type token_key
                (answering r)))).
Proof.
  intros Hj Hk. pose proof (bound_key_nonempty _ _ _ Hk) as Hd.
  split; intros; unfold returns_cleanly.
  - unfold create_endpoint. exec ltac:(rewrite ?Hj, ?Hk, ?Hd).
    split; [split; [no_errors | reflexivity] | in_trace].
  - unfold create_oauth_endpoint. exec ltac:(rewrite ?Hj, ?Hk, ?Hd).
    split; [split; [no_errors | reflexivity] | in_trace].
Qed.

(** X10: on one and the same reply, [create_oauth_endpoint] ends exactly
    as [create_endpoint] does, with the same value or the same exception,
    whatever the arguments of the two calls; the OAuth variant differs in
    its request and in its log only. *)
Theorem create_oauth_endpoint_ends_as_create_endpoint
    (r : response) (devv_url auth_url token token_type token_key token' devv_url' : string) :
  snd (create_oauth_endpoint json_loads devv_url auth_url token token_type token_key
         (answering r)) =
  snd (create_endpoint json_loads token' devv_url' (answering r)).
Proof.
  unfold create_oauth_endpoint, create_endpoint. unfold_monad. same_cases.
Qed.

(** *** Listings *)

(** X11: one listed object without the extracted key discards the whole
    listing: when the entries before it bind the key and it does not,
    [add_devices] (on lists of equal length), [assign_to_endpoint],
    [delete_from_endpoint] and [delete_endpoints] raise the [KeyError] of
    that key and return none of the ids collected so far. *)
Theorem listing_with_gap_raises_KeyError (r : response) (d : list (string * pyval))
    (entries : list pyval) :
  json_loads (content r) = Some (PDict d) ->
  (dict_get "DevicesPassed" d = Some (PList entries) ->
   listing_with_gap "DeviceId" entries ->
   forall new_ids new_acs token,
     List.length new_ids = List.length new_acs ->
     snd (add_devices json_loads new_ids new_acs token (answering r)) =
       Raise (KeyError "DeviceId")) /\
  (dict_get "DevicePassed" d = Some (PList entries) ->
   listing_with_gap "DeviceId" entries ->
   forall device_ids endpoint_id token,
     snd (assign_to_endpoint json_loads device_ids endpoint_id token (answering r)) =
       Raise (KeyError "DeviceId")) /\
  (dict_get "DevicePassed" d = Some (PList entries) ->
   listing_with_gap "DeviceId" entries ->
   forall device_ids endpoint_id token,
     snd (delete_from_endpoint json_loads device_ids endpoint_id token (answering r)) =
       Raise (KeyError "DeviceId")) /\
  (dict_get "EndpointsDeleted" d = Some (PList entries) ->
   listing_with_gap "EndpointId" entries ->
   forall kill_points token,
     snd (delete_endpoints json_loads kill_points token (answering r)) =
       Raise (KeyError "EndpointId")).
Proof.
  intro Hj. repeat apply conj; intros Hk Hgap; intros;
    pose proof (rmap_getitem_gap _ _ Hgap) as Hraise.
  - unfold add_devices. rewrite dev_code_pairs_total by lia.
    exec ltac:(rewrite ?Hj, ?Hk, ?Hraise); reflexivity.
  - unfold assign_to_endpoint. exec ltac:(rewrite ?Hj, ?Hk, ?Hraise); reflexivity.
  - unfold delete_from_endpoint. exec ltac:(rewrite ?Hj, ?Hk, ?Hraise); reflexivity.
  - unfold delete_endpoints. exec ltac:(rewrite ?Hj, ?Hk, ?Hraise); reflexivity.
Qed.

(** X12: on a reply whose JSON object lists, under the key the operation
    reads, objects that all bind the extracted key, [add_devices] (on lists
    of equal length), [assign_to_endpoint], [delete_from_endpoint] and
    [delete_endpoints] return the bound values in the order of the reply
    and log no error; the ids given to the call play no part in the
    result. *)
Theorem well_formed_listing_returned (r : response) (d : list (string * pyval))
    (entries passed : list pyval) :
  json_loads (content r) = Some (PDict d) ->
  (dict_get "DevicesPassed" d = Some (PList entries) ->
   Forall2 (entry_with "DeviceId") entries passed ->
   forall new_ids new_acs token,
     List.length new_ids = List.length new_acs ->
     returns_cleanly (PList passed)
       (add_devices json_loads new_ids new_acs token (answering r))) /\
  (dict_get "DevicePassed" d = Some (PList entries) ->
   Forall2 (entry_with "DeviceId") entries passed ->
   forall device_ids endpoint_id token,
     returns_cleanly (PList passed)
       (assign_to_endpoint json_loads device_ids endpoint_id token (answering r))) /\
  (dict_get "DevicePassed" d = Some (PList entries) ->
   Forall2 (entry_with "DeviceId") entries passed ->
   forall device_ids endpoint_id token,
     returns_cleanly (PList passed)
       (delete_from_endpoint json_loads device_ids endpoint_id token (answering r))) /\
  (dict_get "EndpointsDeleted" d = Some (PList entries) ->
   Forall2 (entry_with "EndpointId") entries passed ->
   forall kill_points token,
     returns_cleanly (PList passed)
       (delete_endpoints json_loads kill_points token (answering r))).
Proof.
  intro Hj. repeat apply conj; intros Hk Hentries; intros;
    pose proof (rmap_getitem_entries _ _ _ Hentries) as Hpassed;
    pose proof (bound_key_nonempty _ _ _ Hk) as Hd;
    unfold returns_cleanly.
  - unfold add_devices. rewrite dev_code_pairs_total by lia.
    exec ltac:(rewrite ?Hj, ?Hk, ?Hd, ?Hpassed); (split; [no_errors | reflexivity]).
  - unfold assign_to_endpoint.
    exec ltac:(rewrite ?Hj, ?Hk, ?Hd, ?Hpassed); (split; [no_errors | reflexivity]).
  - unfold delete_from_endpoint.
    exec ltac:(rewrite ?Hj, ?Hk, ?Hd, ?Hpassed); (split; [no_errors | reflexivity]).
  - unfold delete_endpoints.
    exec ltac:(rewrite ?Hj, ?Hk, ?Hd, ?Hpassed); (split; [no_errors | reflexivity]).
Qed.

(** *** [get_endpoints] *)

(** X13: [get_endpoints] is satisfied by a top-level ["EndpointId"]: when
    the JSON object binds it, no error is logged, yet the result still
    hangs on ["Endpoints"]: without that key the call fails with
    [KeyError] and nothing in the log, and with a list of objects under it
    the call returns the list. *)
Theorem get_endpoints_validated_by_EndpointId
    (token : string) (r : response) (d : list (string * pyval)) (x : pyval) :
  json_loads (content r) = Some (PDict d) ->
  dict_get "EndpointId" d = Some x ->
  (dict_get "Endpoints" d = None ->
     fails_unreported (KeyError "Endpoints") (get_endpoints json_loads token (answering r))) /\
  (forall entries,
     dict_get "Endpoints" d = Some (PList entries) ->
     Forall is_object entries ->
     returns_cleanly (PList entries) (get_endpoints json_loads token (answering r))).
Proof.
  intros Hj Hid. pose proof (bound_key_nonempty _ _ _ Hid) as Hd. split.
  - intro Hlist. unfold get_endpoints.
    fails_unreported_by ltac:(rewrite ?Hj, ?Hid, ?Hlist, ?Hd).
  - intros entries Hlist Hobj.
    destruct (for_each_found_clean entries (fun _ => Some r) Hobj) as (t & Ht & Hclean).
    unfold returns_cleanly, get_endpoints.
    exec ltac:(rewrite ?Hj, ?Hid, ?Hlist, ?Hd, ?Ht).
    split; [no_errors_with Hclean | reflexivity].
Qed.

(** X14: when one of the values listed under ["Endpoints"] is not an
    object, [get_endpoints] fails with [AttributeError] in its logging loop
    and returns nothing, although the listing itself was received. *)
Theorem get_endpoints_non_object_entry
    (token : string) (r : response) (d : list (string * pyval)) (entries : list pyval) :
  json_loads (content r) = Some (PDict d) ->
  dict_get "Endpoints" d = Some (PList entries) ->
  Exists (fun entry => ~ is_object entry) entries ->
  snd (get_endpoints json_loads token (answering r)) = Raise AttributeError.
Proof.
  intros Hj Hlist Hbad.
  destruct (for_each_found_stops entries (fun _ => Some r) Hbad) as [t Ht].
  unfold get_endpoints.
  exec ltac:(rewrite ?Hj, ?Hlist, ?Ht); reflexivity.
Qed.

(** *** Operations that use the raw response *)

(** X15: [get_devices] and [get_devices_by_location] write the error
    record "No devices found" on every reply: their membership test
    compares the key with the chunks of bytes of the body, and a [str]
    never equals one. *)
Theorem no_devices_found_always_logged (token : string) (r : response) :
  logged ERROR "No devices found" (fst (get_devices json_loads token (answering r))) /\
  logged ERROR "No devices found"
    (fst (get_devices_by_location json_loads token (answering r))).
Proof.
  split.
  - unfold get_devices, Response_getitem. unfold_monad. cbn.
    rewrite Response_contains_false. cbn. split_if; in_trace.
  - unfold get_devices_by_location. unfold_monad. cbn.
    rewrite Response_contains_false, rmap_getitem_chunks. cbn.
    destruct (content r); split_if; in_trace.
Qed.

(** X16: on a reply without body, [get_devices_by_location],
    [get_locations] and [get_location_reports] find nothing to iterate and
    log an empty listing before they fail. *)
Theorem empty_body_logged_as_empty_listing (token : string) (r : response) :
  content r = [] ->
  In (EvLog INFO "Locations found: {}" [PList []])
     (fst (get_devices_by_location json_loads token (answering r))) /\
  In (EvLog INFO "Locations found: {}" [PList []])
     (fst (get_locations json_loads token (answering r))) /\
  In (EvLog INFO "Reports generated for: {}" [PList []])
     (fst (get_location_reports json_loads token (answering r))).
Proof.
  intro Hempty. repeat apply conj.
  - unfold get_devices_by_location. unfold_monad. cbn.
    rewrite Response_contains_false, rmap_getitem_chunks, Hempty. cbn.
    split_if; destruct (json_loads []); in_trace.
  - unfold get_locations. unfold_monad. cbn.
    rewrite rmap_getitem_chunks, Hempty. cbn.
    split_if; destruct (json_loads []); in_trace.
  - unfold get_location_reports. unfold_monad. cbn.
    rewrite rmap_getitem_chunks, Hempty. cbn.
    split_if; destruct (json_loads []); in_trace.
Qed.

(** *** [print_version] *)

(** X17: the only check of [print_version] is on the status of the reply:
    with a status from 400 to 599 it writes "No json data received" and
    still logs the version of a well-formed body; with any other status it
    logs no error. *)
Theorem print_version_error_follows_status
    (r : response) (d : list (string * pyval)) (v : pyval) :
  json_loads (content r) = Some (PDict d) ->
  dict_get "Version" d = Some v ->
  ((400 <= status_code r < 600)%Z ->
     logged ERROR "No json data received in print_version()"
       (fst (print_version json_loads (answering r))) /\
     In (EvLog INFO "Version: {}" [v]) (fst (print_version json_loads (answering r)))) /\
  (~ (400 <= status_code r < 600)%Z ->
     no_error_logged (fst (print_version json_loads (answering r)))).
Proof.
  intros Hj Hk. split; intro Hstatus.
  - apply Response_bool_false_iff in Hstatus. unfold print_version.
    exec ltac:(rewrite ?Hj, ?Hk, ?Hstatus). split; in_trace.
  - assert (Hok : Response_bool r = true).
    { destruct (Response_bool r) eqn:E; [reflexivity|].
      apply Response_bool_false_iff in E. contradiction. }
    unfold print_version. exec ltac:(rewrite ?Hj, ?Hk, ?Hok). no_errors.
Qed.

(** X18: [print_version] does not look at the body before it indexes it:
    a body that is not JSON ends it with the decoding error, a JSON value
    that is not an object with [TypeError], and an object without
    ["Version"] with the [KeyError] of that key, which no error record
    announces when the status is below 400 or above 599. *)
Theorem print_version_failures (r : response) :
  (json_loads (content r) = None ->
     snd (print_version json_loads (answering r)) = Raise JSONDecodeError) /\
  (forall j,
     json_loads (content r) = Some j -> ~ is_object j ->
     snd (print_version json_loads (answering r)) = Raise TypeError) /\
  (forall d,
     json_loads (content r) = Some (PDict d) -> dict_get "Version" d = None ->
     snd (print_version json_loads (answering r)) = Raise (KeyError "Version") /\
     (Response_bool r = true ->
        no_error_logged (fst (print_version json_loads (answering r))))).
Proof.
  repeat apply conj.
  - intro Hj. unfold print_version. exec ltac:(rewrite ?Hj); reflexivity.
  - intros j Hj Hno. unfold print_version.
    not_an_object j Hno; exec ltac:(rewrite ?Hj); reflexivity.
  - intros d Hj Hk. split.
    + unfold print_version. exec ltac:(rewrite ?Hj, ?Hk); reflexivity.
    + intro Hok. unfold print_version. exec ltac:(rewrite ?Hj, ?Hk, ?Hok). no_errors.
Qed.

(** *** Assigning and removing devices *)

(** X19: on one and the same reply, [delete_from_endpoint] ends exactly
    as [assign_to_endpoint] does, with the same list or the same exception,
    whatever the arguments of the two calls: both read the ["DeviceId"]
    values listed under ["DevicePassed"], and neither compares them with
    the ids it was given. *)
Theorem delete_from_endpoint_ends_as_assign_to_endpoint
    (r : response) (device_ids device_ids' : list string)
    (endpoint_id token endpoint_id' token' : string) :
  snd (delete_from_endpoint json_loads device_ids endpoint_id token (answering r)) =
  snd (assign_to_endpoint json_loads device_ids' endpoint_id' token' (answering r)).
Proof.
  unfold delete_from_endpoint, assign_to_endpoint. unfold_monad. same_cases.
Qed.

End Replies.

(** ** The further properties on concrete replies *)

Ltac not_object := intros [? ?]; discriminate.

(** A token reply. *)
Lemma get_token_returns_and_logs_token_witness :
  returns_cleanly (PStr "abc123")
    (get_token reference_loads "client" "secret" (answering (reply 200 doc_token))) /\
  In (EvLog INFO "Token: {}" [PStr "abc123"])
     (fst (get_token reference_loads "client" "secret" (answering (reply 200 doc_token)))).
Proof.
  apply (get_token_returns_and_logs_token reference_loads (reply 200 doc_token)
           [("access_token", PStr "abc123"); ("token_type", PStr "Bearer")]);
    reflexivity.
Defined.

(** A gateway error page instead of JSON. *)
Lemma undecodable_body_fails_unreported_witness :
  fails_unreported JSONDecodeError
    (get_token reference_loads "client" "secret" (answering (reply 502 doc_not_json))) /\
  fails_unreported JSONDecodeError
    (get_endpoints reference_loads "tok" (answering (reply 502 doc_not_json))).
Proof.
  destruct (undecodable_body_fails_unreported reference_loads (reply 502 doc_not_json))
    as (Htoken & _ & _ & Hget); [reflexivity|].
  split; [apply Htoken | apply Hget].
Defined.

Lemma undecodable_body_fails_unreported_listing_witness :
  fails_unreported JSONDecodeError
    (add_devices reference_loads [id_a1] [ac_1] "tok" (answering (reply 502 doc_not_json))) /\
  fails_unreported JSONDecodeError
    (delete_endpoints reference_loads ["ep-1"] "tok" (answering (reply 502 doc_not_json))).
Proof.
  destruct (undecodable_body_fails_unreported_listing reference_loads (reply 502 doc_not_json))
    as (Hadd & _ & _ & Hdel); [reflexivity|].
  split; [apply Hadd; reflexivity | apply Hdel].
Defined.

(** The body [[]]. *)
Lemma non_object_body_raises_TypeError_witness :
  snd (get_token reference_loads "client" "secret" (answering (reply 200 doc_empty_list))) =
    Raise TypeError /\
  snd (create_endpoint reference_loads "tok" "https://example.org/in"
         (answering (reply 200 doc_empty_list))) = Raise TypeError.
Proof.
  destruct (non_object_body_raises_TypeError reference_loads (reply 200 doc_empty_list)
              (PList [])) as (Htoken & Hcreate & _); [reflexivity | not_object |].
  split; [apply Htoken | apply Hcreate].
Defined.

Lemma non_object_body_raises_TypeError_listing_witness :
  snd (add_devices reference_loads [id_a1] [ac_1] "tok"
         (answering (reply 200 doc_empty_list))) = Raise TypeError /\
  snd (assign_to_endpoint reference_loads [id_a1] "ep-1" "tok"
         (answering (reply 200 doc_empty_list))) = Raise TypeError.
Proof.
  destruct (non_object_body_raises_TypeError_listing reference_loads
              (reply 200 doc_empty_list) (PList []))
    as (Hadd & Hassign & _); [reflexivity | not_object |].
  split; [apply Hadd; reflexivity | apply Hassign].
Defined.



(** The reply to a creation. *)
Lemma created_endpoint_returns_reply_object_witness :
  returns_cleanly
    (PDict [("EndpointId", PStr "ep-1"); ("URL", PStr "https://example.org/in")])
    (create_endpoint reference_loads "tok" "https://example.org/in"
       (answering (reply 200 doc_created))).
Proof.
  destruct (created_endpoint_returns_reply_object reference_loads (reply 200 doc_created)
              [("EndpointId", PStr "ep-1"); ("URL", PStr "https://example.org/in")]
              (PStr "ep-1")) as [Hcreate _]; [reflexivity | reflexivity |].
  destruct (Hcreate "tok" "https://example.org/in") as [Hreturned _].
  exact Hreturned.
Defined.

(** The second listed device has no ["DeviceId"]. *)
Lemma listing_with_gap_raises_KeyError_witness :
  snd (add_devices reference_loads [id_a1; id_a2] [ac_1; ac_2] "tok"
         (answering (reply 200 doc_passed_malformed))) = Raise (KeyError "DeviceId").
Proof.
  destruct (listing_with_gap_raises_KeyError reference_loads (reply 200 doc_passed_malformed)
              [("DevicesPassed", PList [PDict [("DeviceId", PStr id_a1)];
                                        PDict [("Id", PStr id_a2)]])]
              [PDict [("DeviceId", PStr id_a1)]; PDict [("Id", PStr id_a2)]])
    as [Hadd _]; [reflexivity|].
  apply Hadd; [reflexivity | | reflexivity].
  exists [PDict [("DeviceId", PStr id_a1)]], [PStr id_a1], [("Id", PStr id_a2)], [].
  split; [reflexivity|]. split; [|reflexivity].
  constructor; [|constructor]. eexists. split; reflexivity.
Defined.

(** One device assigned. *)
Lemma well_formed_listing_returned_witness :
  returns_cleanly (PList [PStr id_a1])
    (assign_to_endpoint reference_loads [id_a1; id_a2] "ep-1" "tok"
       (answering (reply 200 doc_device_passed))).
Proof.
  destruct (well_formed_listing_returned reference_loads (reply 200 doc_device_passed)
              [("DevicePassed", PList [PDict [("DeviceId", PStr id_a1)]])]
              [PDict [("DeviceId", PStr id_a1)]] [PStr id_a1])
    as (_ & Hassign & _); [reflexivity|].
  apply Hassign; [reflexivity|].
  constructor; [|constructor]. eexists. split; reflexivity.
Defined.

(** A reply that names an endpoint id, without and with the listing. *)
Lemma get_endpoints_validated_by_EndpointId_witness :
  fails_unreported (KeyError "Endpoints")
    (get_endpoints reference_loads "tok" (answering (reply 200 doc_created))) /\
  returns_cleanly (PList [PDict [("EndpointId", PStr "ep-1")]])
    (get_endpoints reference_loads "tok" (answering (reply 200 doc_endpoints_with_id))).
Proof.
  split.
  - destruct (get_endpoints_validated_by_EndpointId reference_loads "tok"
                (reply 200 doc_created)
                [("EndpointId", PStr "ep-1"); ("URL", PStr "https://example.org/in")]
                (PStr "ep-1")) as [Hmissing _]; [reflexivity | reflexivity |].
    apply Hmissing. reflexivity.
  - destruct (get_endpoints_validated_by_EndpointId reference_loads "tok"
                (reply 200 doc_endpoints_with_id)
                [("EndpointId", PStr "ep-1");
                 ("Endpoints", PList [PDict [("EndpointId", PStr "ep-1")]])]
                (PStr "ep-1")) as [_ Hlisted]; [reflexivity | reflexivity |].
    apply Hlisted; [reflexivity|].
    constructor; [|constructor]. eexists. reflexivity.
Defined.

(** Endpoints listed by name only. *)
Lemma get_endpoints_non_object_entry_witness :
  snd (get_endpoints reference_loads "tok" (answering (reply 200 doc_endpoint_names))) =
    Raise AttributeError.
Proof.
  apply (get_endpoints_non_object_entry reference_loads "tok" (reply 200 doc_endpoint_names)
           [("Endpoints", PList [PStr "ep-1"])] [PStr "ep-1"]).
  - reflexivity.
  - reflexivity.
  - constructor. not_object.
Defined.

(** A refusal without body. *)
Lemma empty_body_logged_as_empty_listing_witness :
  In (EvLog INFO "Locations found: {}" [PList []])
     (fst (get_locations reference_loads "tok" (answering (reply 401 "")))).
Proof.
  destruct (empty_body_logged_as_empty_listing reference_loads "tok" (reply 401 ""))
    as (_ & Hloc & _); [reflexivity|].
  exact Hloc.
Defined.

(** The version delivered under status 404, and under status 200. *)
Lemma print_version_error_follows_status_witness :
  logged ERROR "No json data received in print_version()"
    (fst (print_version reference_loads (answering (reply 404 doc_version)))) /\
  no_error_logged (fst (print_version reference_loads (answering (reply 200 doc_version)))).
Proof.
  split.
  - destruct (print_version_error_follows_status reference_loads (reply 404 doc_version)
                [("Version", PStr "2.1.0")] (PStr "2.1.0")) as [Herr _];
      [reflexivity | reflexivity |].
    apply Herr. simpl. lia.
  - destruct (print_version_error_follows_status reference_loads (reply 200 doc_version)
                [("Version", PStr "2.1.0")] (PStr "2.1.0")) as [_ Hok];
      [reflexivity | reflexivity |].
    apply Hok. simpl. lia.
Defined.

(** The body [{}] under status 200, and a page that is not JSON. *)
Lemma print_version_failures_witness :
  snd (print_version reference_loads (answering (reply 200 doc_empty_object))) =
    Raise (KeyError "Version") /\
  no_error_logged (fst (print_version reference_loads (answering (reply 200 doc_empty_object)))) /\
  snd (print_version reference_loads (answering (reply 502 doc_not_json))) =
    Raise JSONDecodeError.
Proof.
  destruct (print_version_failures reference_loads (reply 200 doc_empty_object))
    as (_ & _ & Hkey).
  destruct (Hkey [] eq_refl eq_refl) as [Hraise Hclean].
  destruct (print_version_failures reference_loads (reply 502 doc_not_json))
    as (Hjson & _ & _).
  split; [exact Hraise|]. split; [apply Hclean; reflexivity | apply Hjson; reflexivity].
Defined.

(** ** The query strings of the operations that send lists *)







Section Wire.

Variable json_loads : decoder.






End Wire.


